(** * omgeo.services: the provider adapters Bing, USCensus, MapQuest, Nominatim

    A shallow embedding of [omgeo/services/__init__.py].  Python values
    decoded from a provider's JSON are the inductive type [pyval]; a Python
    dict that is read by subscript or serialised keeps its insertion order
    (an association list with unique keys); the attribute store of a
    [Candidate] object is a finite map from attribute names to values;
    a raised exception is the [Err] branch of [result].

    Strings are sequences of code points below 256. *)

From Stdlib Require Import ZArith Ascii String List Bool Lia.
From stdpp Require Import base option list strings gmap fin_maps pretty.

Set Warnings "-register-all".

Local Open Scope Z_scope.

(** ** Exceptions and the error monad *)

Inductive exn : Type :=
| KeyError (key : string)
| IndexError
| TypeError
| ValueError
| AttributeError
| OverflowError
| TransportError (msg : string).

Inductive result (A : Type) : Type :=
| Ok (a : A)
| Err (e : exn).
Arguments Ok {A} a.
Arguments Err {A} e.

#[global] Instance result_ret : MRet result := fun A a => Ok a.
#[global] Instance result_bind : MBind result := fun A B f m =>
  match m with
  | Ok a => f a
  | Err e => Err e
  end.

#[global] Instance result_fmap : FMap result := fun A B f m =>
  match m with
  | Ok a => Ok (f a)
  | Err e => Err e
  end.

Definition raises {A} (m : result A) : Prop := ∃ e, m = Err e.

Definition returned {A} (m : result A) : Prop := ∃ a, m = Ok a.

(** ** Python dicts with string keys, in insertion order *)

(** [d.get(k)] *)
Fixpoint dict_get {V} (k : string) (d : list (string * V)) : option V :=
  match d with
  | [] => None
  | (k', v) :: d' => if String.eqb k k' then Some v else dict_get k d'
  end.

(** [d[k] = v]: an existing key keeps its position. *)
Fixpoint dict_set {V} (k : string) (v : V) (d : list (string * V))
  : list (string * V) :=
  match d with
  | [] => [(k, v)]
  | (k', v') :: d' =>
      if String.eqb k k' then (k, v) :: d' else (k', v') :: dict_set k v d'
  end.

(** [dict(d, **kw)] *)
Definition dict_update {V} (d kw : list (string * V)) : list (string * V) :=
  fold_left (fun acc kv => dict_set (fst kv) (snd kv) acc) kw d.

(** ** Python floats

    The adapters only convert to float, format with [%f] and test
    truthiness; the float type itself is the interpreter's. *)

Class PyFloat := {
  pyfloat : Type;
  (** [float(s)] on a string; [None] is [ValueError]. *)
  float_of_str : string → option pyfloat;
  (** [float(n)] on an int; [None] is [OverflowError]. *)
  float_of_Z : Z → option pyfloat;
  (** [bool(x)] on a float. *)
  float_truth : pyfloat → bool;
  (** ['%f' % x] on a float. *)
  format_f : pyfloat → string
}.

(** [c] is one of the decimal digits 0..9. *)
Definition isdigit (c : ascii) : bool :=
  ((48 <=? nat_of_ascii c) && (nat_of_ascii c <=? 57))%nat.

(** An interpretation of the float interface that is enough to run the
    adapters on sample rows: a float is kept as the decimal text it was
    read from. *)
Definition decimal_text (s : string) : bool :=
  let body := match s with
              | String "-" s' => s'
              | _ => s
              end in
  let cs := list_ascii_of_string body in
  existsb isdigit cs
  && forallb (λ c, isdigit c || Ascii.eqb c ".") cs
  && (length (filter (λ c, c = "."%char) cs) <=? 1)%nat.

Definition text_float : PyFloat := {|
  pyfloat := string;
  float_of_str s := if decimal_text s then Some s else None;
  float_of_Z z := Some (pretty z +:+ ".0");
  float_truth s := existsb (λ c, isdigit c && negb (Ascii.eqb c "0"))
                     (list_ascii_of_string s);
  format_f s := s
|}.

(** An adapter returned. *)
Definition is_Ok {A} (m : result A) : bool :=
  match m with
  | Ok _ => true
  | Err _ => false
  end.

(** The list an adapter returned, if it did. *)
Definition the_list {A} (m : result (list A)) : list A :=
  match m with
  | Ok l => l
  | Err _ => []
  end.

Section Services.
Context `{PyFloat}.

(** ** Python values *)

Inductive pyval : Type :=
| PNone
| PBool (b : bool)
| PInt (z : Z)
| PFloat (f : pyfloat)
| PStr (s : string)
| PList (l : list pyval)
| PDict (d : list (string * pyval)).

Abbreviation pydict := (list (string * pyval)).

(** [v[k]] with a string key *)
Definition getitem (v : pyval) (k : string) : result pyval :=
  match v with
  | PDict d =>
      match dict_get k d with
      | Some x => Ok x
      | None => Err (KeyError k)
      end
  | _ => Err TypeError
  end.

(** [v[i]] with an int index (only [0] and [1] occur) *)
Definition getindex (v : pyval) (i : nat) : result pyval :=
  match v with
  | PList l =>
      match l !! i with
      | Some x => Ok x
      | None => Err IndexError
      end
  | PStr s =>
      match String.get i s with
      | Some c => Ok (PStr (String c ""))
      | None => Err IndexError
      end
  | PDict _ => Err (KeyError (pretty i))
  | _ => Err TypeError
  end.

Fixpoint is_infix (k s : string) : bool :=
  String.prefix k s ||
  match s with
  | "" => false
  | String _ s' => is_infix k s'
  end.

(** [k in v] with a string key *)
Definition contains (k : string) (v : pyval) : result bool :=
  match v with
  | PDict d => Ok (bool_decide (is_Some (dict_get k d)))
  | PList l =>
      Ok (existsb (fun x => match x with
                            | PStr s => String.eqb s k
                            | _ => false
                            end) l)
  | PStr s => Ok (is_infix k s)
  | _ => Err TypeError
  end.

Fixpoint chars (s : string) : list pyval :=
  match s with
  | "" => []
  | String c s' => PStr (String c "") :: chars s'
  end.

(** The items a [for] loop over [v] visits. *)
Definition iterate (v : pyval) : result (list pyval) :=
  match v with
  | PList l => Ok l
  | PDict d => Ok (map (fun kv => PStr (fst kv)) d)
  | PStr s => Ok (chars s)
  | _ => Err TypeError
  end.

(** [bool(v)] *)
Definition truthy (v : pyval) : bool :=
  match v with
  | PNone => false
  | PBool b => b
  | PInt z => negb (Z.eqb z 0)
  | PFloat f => float_truth f
  | PStr s => negb (String.eqb s "")
  | PList l => match l with [] => false | _ => true end
  | PDict d => match d with [] => false | _ => true end
  end.

(** [float(v)] *)
Definition float (v : pyval) : result pyval :=
  match v with
  | PFloat f => Ok (PFloat f)
  | PInt z =>
      match float_of_Z z with
      | Some f => Ok (PFloat f)
      | None => Err OverflowError
      end
  | PBool b =>
      match float_of_Z (if b then 1 else 0) with
      | Some f => Ok (PFloat f)
      | None => Err OverflowError
      end
  | PStr s =>
      match float_of_str s with
      | Some f => Ok (PFloat f)
      | None => Err ValueError
      end
  | _ => Err TypeError
  end.

(** ['%f' % v] *)
Definition percent_f (v : pyval) : result string :=
  match v with
  | PFloat f => Ok (format_f f)
  | PInt z =>
      match float_of_Z z with
      | Some f => Ok (format_f f)
      | None => Err OverflowError
      end
  | PBool b =>
      match float_of_Z (if b then 1 else 0) with
      | Some f => Ok (format_f f)
      | None => Err OverflowError
      end
  | _ => Err TypeError
  end.

(** ** Strings *)

(** The code points [str.isspace] accepts, below 256. *)
Definition isspace (c : ascii) : bool :=
  let n := nat_of_ascii c in
  ((9 <=? n) && (n <=? 13) || (28 <=? n) && (n <=? 32)
   || (n =? 133) || (n =? 160))%nat.

Fixpoint lstrip (s : string) : string :=
  match s with
  | "" => ""
  | String c s' => if isspace c then lstrip s' else s
  end.

Fixpoint rstrip (s : string) : string :=
  match s with
  | "" => ""
  | String c s' =>
      match rstrip s' with
      | "" => if isspace c then "" else String c ""
      | t => String c t
      end
  end.

(** [s.strip()] *)
Definition strip (s : string) : string := rstrip (lstrip s).

(** [sep.join(l)] on strings *)
Fixpoint join (sep : string) (l : list string) : string :=
  match l with
  | [] => ""
  | [s] => s
  | s :: l' => s +:+ sep +:+ join sep l'
  end.

(** [sep.join(l)] on values: an item that is not a [str] is a [TypeError]. *)
Definition join_vals (sep : string) (l : list pyval) : result string :=
  ss ← mapM (fun v => match v with
                      | PStr s => Ok s
                      | _ => Err TypeError
                      end) l;
  Ok (join sep ss).

(** ** [json.dumps] on the dict MapQuest serialises

    Default separators, [ensure_ascii]: everything outside space..tilde is
    escaped, as are the quote and the backslash. *)

Definition dquote : string := String (ascii_of_nat 34) "".

Definition hexdigit (n : nat) : string :=
  String.substring n 1 "0123456789abcdef".

Definition json_escape_char (c : ascii) : string :=
  let n := nat_of_ascii c in
  if (n =? 34)%nat then "\" +:+ dquote
  else if (n =? 92)%nat then "\\"
  else if (n =? 8)%nat then "\b"
  else if (n =? 12)%nat then "\f"
  else if (n =? 10)%nat then "\n"
  else if (n =? 13)%nat then "\r"
  else if (n =? 9)%nat then "\t"
  else if ((32 <=? n) && (n <=? 126))%nat then String c ""
  else "\u00" +:+ hexdigit (n / 16) +:+ hexdigit (n mod 16).

Fixpoint json_escape (s : string) : string :=
  match s with
  | "" => ""
  | String c s' => json_escape_char c +:+ json_escape s'
  end.

Definition json_str (s : string) : string :=
  dquote +:+ json_escape s +:+ dquote.

(** [json.dumps(d)] for a dict from [str] to [str] *)
Definition json_dumps_strdict (d : list (string * string)) : string :=
  "{" +:+ join ", " (map (fun kv => json_str (fst kv) +:+ ": "
                                    +:+ json_str (snd kv)) d) +:+ "}".

(** [json.dumps(dict(location=location))] *)
Definition json_dumps_location (location : list (string * string)) : string :=
  "{" +:+ json_str "location" +:+ ": " +:+ json_dumps_strdict location +:+ "}".

(** ** The query a caller hands to an adapter

    [omgeo.places] is not part of this file: a [PlaceQuery] is the
    record of the attributes the adapters read; an attribute the adapters
    probe with [hasattr] is optional, and a [Viewbox] is known by its two
    provider serialisations. *)

Record Viewbox := {
  to_bing_str : string;
  to_mapquest_str : string
}.

Record PlaceQuery := {
  query : string;
  address : string;
  city : string;
  state : string;
  postal : string;
  country : string;
  subregion : string;
  viewbox : option Viewbox;
  bounded : bool;
  culture : option string;
  user_ip : option string;
  user_lat : option pyval;
  user_lon : option pyval
}.

(** ** Pre- and postprocessor configurations

    Only their constructor calls occur here: a stage is the record of the
    arguments it was built with. *)

Inductive preprocessor : Type :=
| CancelIfPOBox
| CountryPreProcessor
| RequireCountry
| ParseSingleLine
| ReplaceRangeWithNumber.

Inductive postprocessor : Type :=
| AttrFilter (values : list string) (attr : string) (exact_match : bool)
| AttrExclude (values : list string) (attr : string)
| AttrRename (attr : string) (mapping : list (string * string))
| AttrSorter (values : list string) (attr : string)
| AttrMigrator (src dst : string) (mapping : list (string * Z))
| UseHighScoreIfAtLeast (threshold : Z)
| GroupBy (keys : list string)
| ScoreSorter.

(** ** The classes

    A class body is the sequence of its attribute bindings, executed in
    order into the class namespace: a later binding of a name replaces an
    earlier one. *)

Inductive service_class : Type :=
| Bing | USCensus | MapQuest | MapQuestSSL | MapQuestOpen | Nominatim.

Inductive class_value : Type :=
| CStr (s : string)
| CInt (z : Z)
| CStrs (l : list string)
| CPre (l : list preprocessor)
| CPost (l : list postprocessor).

Definition Bing_postprocessors_first : list postprocessor :=
  [ AttrMigrator "confidence" "score"
      [("High", 100); ("Medium", 85); ("Low", 50)];
    UseHighScoreIfAtLeast 100;
    AttrFilter ["Address"; "AdministrativeBuilding";
                "AgriculturalStructure";
                "BusinessName"; "BusinessStructure";
                "BusStation"; "Camp"; "Church"; "CityHall";
                "CommunityCenter"; "ConventionCenter";
                "Courthouse"; "Factory"; "FerryTerminal";
                "FishHatchery"; "Fort"; "Garden"; "Geyser";
                "Heliport"; "IndustrialStructure";
                "InformationCenter"; "Junction";
                "LandmarkBuilding"; "Library"; "Lighthouse";
                "Marina"; "MedicalStructure"; "MetroStation";
                "Mine"; "Mission"; "Monument"; "Mosque";
                "Museum"; "NauticalStructure"; "NavigationalStructure";
                "OfficeBuilding"; "ParkAndRide"; "PlayingField";
                "PoliceStation"; "PostOffice"; "PowerStation";
                "Prison"; "RaceTrack"; "ReligiousStructure";
                "RestArea"; "Ruin"; "ShoppingCenter"; "Site";
                "SkiArea"; "Spring"; "Stadium"; "Temple";
                "TouristStructure"] "entity" true;
    AttrRename "locator" [("Rooftop", "rooftop");
                          ("Parcel", "parcel");
                          ("ParcelCentroid", "parcel");
                          ("Interpolation", "interpolation");
                          ("InterpolationOffset", "interpolation_offset")];
    AttrSorter ["rooftop"; "parcel";
                "interpolation_offset"; "interpolation"] "locator";
    AttrSorter ["Address"] "entity";
    ScoreSorter;
    GroupBy ["x"; "y"];
    GroupBy ["match_addr"] ].

Definition Bing_body : list (string * class_value) :=
  [ ("_endpoint", CStr "http://dev.virtualearth.net/REST/v1/Locations");
    ("DEFAULT_PREPROCESSORS", CPre [ReplaceRangeWithNumber]);
    ("DEFAULT_POSTPROCESSORS", CPost Bing_postprocessors_first);
    ("DEFAULT_POSTPROCESSORS", CPost []) ].

Definition USCensus_body : list (string * class_value) :=
  [ ("_endpoint", CStr "");
    ("_endpoint_base",
     CStr "http://geocoding.geo.census.gov/geocoder/locations/") ].

Definition MapQuest_body : list (string * class_value) :=
  [ ("_endpoint", CStr "http://www.mapquestapi.com/geocoding/v1/address") ].

Definition MapQuestSSL_body : list (string * class_value) :=
  [ ("_endpoint", CStr "https://www.mapquestapi.com/geocoding/v1/address") ].

Definition MapQuestOpen_body : list (string * class_value) :=
  [ ("_endpoint", CStr "http://open.mapquestapi.com/geocoding/v1/address") ].

Definition DEFAULT_ACCEPTED_ENTITIES : list string :=
  ["building."; "historic.castle"; "leisure.ice_rink";
   "leisure.miniature_golf";
   "leisure.sports_centre"; "lesiure.stadium"; "leisure.track";
   "lesiure.water_park"; "man_made.lighthouse"; "man_made.works";
   "military.barracks"; "military.bunker"; "office."; "place.house";
   "amenity."; "power.generator"; "railway.station";
   "shop."; "tourism."].

Definition DEFAULT_REJECTED_ENTITIES : list string :=
  ["amenity.drinking_water";
   "amentity.bicycle_parking"; "amentity.ev_charging";
   "amentity.grit_bin"; "amentity.atm";
   "amentity.hunting_stand"; "amentity.post_box"].

Definition Nominatim_body : list (string * class_value) :=
  [ ("_wkid", CInt 4326);
    ("_endpoint", CStr "http://open.mapquestapi.com/nominatim/v1/search");
    ("DEFAULT_ACCEPTED_ENTITIES", CStrs DEFAULT_ACCEPTED_ENTITIES);
    ("DEFAULT_REJECTED_ENTITIES", CStrs DEFAULT_REJECTED_ENTITIES);
    ("DEFAULT_PREPROCESSORS", CPre [ReplaceRangeWithNumber]);
    ("DEFAULT_POSTPROCESSORS",
     CPost [ AttrFilter DEFAULT_ACCEPTED_ENTITIES "entity" false;
             AttrExclude DEFAULT_REJECTED_ENTITIES "entity" ]) ].

Definition class_body (cls : service_class) : list (string * class_value) :=
  match cls with
  | Bing => Bing_body
  | USCensus => USCensus_body
  | MapQuest => MapQuest_body
  | MapQuestSSL => MapQuestSSL_body
  | MapQuestOpen => MapQuestOpen_body
  | Nominatim => Nominatim_body
  end.

(** The namespace a class body leaves behind. *)
Definition namespace (body : list (string * class_value))
  : gmap string class_value :=
  fold_left (fun ns kv => <[fst kv := snd kv]> ns) body ∅.

(** The base classes defined in this file ([GeocodeService] is not). *)
Definition bases (cls : service_class) : list service_class :=
  match cls with
  | MapQuestSSL | MapQuestOpen => [MapQuest]
  | _ => []
  end.

(** [cls.name], looked up along the method resolution order. *)
Definition class_attr (cls : service_class) (name : string)
  : option class_value :=
  match namespace (class_body cls) !! name with
  | Some v => Some v
  | None =>
      match bases cls with
      | b :: _ => namespace (class_body b) !! name
      | [] => None
      end
  end.

(** [cls.__name__] *)
Definition class_name (cls : service_class) : string :=
  match cls with
  | Bing => "Bing"
  | USCensus => "USCensus"
  | MapQuest => "MapQuest"
  | MapQuestSSL => "MapQuestSSL"
  | MapQuestOpen => "MapQuestOpen"
  | Nominatim => "Nominatim"
  end.

(** A string-valued class attribute read through [self]. *)
Definition str_attr (cls : service_class) (name : string) : result string :=
  match class_attr cls name with
  | Some (CStr s) => Ok s
  | Some _ => Err TypeError
  | None => Err AttributeError
  end.

(** ** Service objects and candidates *)

(** What [_geocode] reads from [self]: its class and its settings. *)
Record service := {
  cls : service_class;
  _settings : list (string * string)
}.

(** [self._settings[k]] *)
Definition setting (self : service) (k : string) : result string :=
  match dict_get k (_settings self) with
  | Some v => Ok v
  | None => Err (KeyError k)
  end.

(** The arguments a constructor hands to [GeocodeService.__init__]. *)
Record init_args := {
  init_preprocessors : list preprocessor;
  init_postprocessors : list postprocessor;
  init_settings : option (list (string * string))
}.

Definition default_preprocessors (c : service_class)
  : result (list preprocessor) :=
  match class_attr c "DEFAULT_PREPROCESSORS" with
  | Some (CPre l) => Ok l
  | Some _ => Err TypeError
  | None => Err AttributeError
  end.

Definition default_postprocessors (c : service_class)
  : result (list postprocessor) :=
  match class_attr c "DEFAULT_POSTPROCESSORS" with
  | Some (CPost l) => Ok l
  | Some _ => Err TypeError
  | None => Err AttributeError
  end.

(** [Bing.__init__] *)
Definition Bing_init (preprocessors : option (list preprocessor))
    (postprocessors : option (list postprocessor))
    (settings : option (list (string * string))) : result init_args :=
  preprocessors ← match preprocessors with
                  | None => default_preprocessors Bing
                  | Some l => Ok l
                  end;
  postprocessors ← match postprocessors with
                   | None => default_postprocessors Bing
                   | Some l => Ok l
                   end;
  Ok {| init_preprocessors := preprocessors;
        init_postprocessors := postprocessors;
        init_settings := settings |}.

(** [Nominatim.__init__] *)
Definition Nominatim_init (preprocessors : option (list preprocessor))
    (postprocessors : option (list postprocessor))
    (settings : option (list (string * string))) : result init_args :=
  preprocessors ← match preprocessors with
                  | None => default_preprocessors Nominatim
                  | Some l => Ok l
                  end;
  postprocessors ← match postprocessors with
                   | None => default_postprocessors Nominatim
                   | Some l => Ok l
                   end;
  Ok {| init_preprocessors := preprocessors;
        init_postprocessors := postprocessors;
        init_settings := settings |}.

(** The attribute store of the object [Candidate()] returns; the class is
    imported from [omgeo.places]. *)
Context (Candidate : gmap string pyval).

(** [self._get_json_obj(endpoint, query)], inherited from [GeocodeService]:
    the decoded JSON response, or the exception the transport raised. *)
Context (_get_json_obj : string → pydict → result pyval).

(** [urllib.unquote] *)
Context (unquote : string → string).

(** [str(v)] of a value that is not a [str]. *)
Context (str_other : pyval → string).

(** [setattr(c, name, v)] *)
Definition setattr (c : gmap string pyval) (name : string) (v : pyval)
  : gmap string pyval := <[name := v]> c.

(** ['%s' % v] *)
Definition percent_s (v : pyval) : string :=
  match v with
  | PStr s => s
  | _ => str_other v
  end.

(** ** Bing *)

(** The request [Bing._geocode] hands to [_get_json_obj]. *)
Definition Bing_request (self : service) (pq : PlaceQuery)
  : result (string * pydict) :=
  let q :=
    if String.eqb (strip (query pq)) ""
    then [("addressLine", PStr (address pq));
          ("locality", PStr (city pq));
          ("adminDistrict", PStr (state pq));
          ("postalCode", PStr (postal pq));
          ("countryRegion", PStr (country pq))]
    else [("query", PStr (query pq))] in
  let q := match viewbox pq with
           | Some vb => dict_update q [("umv", PStr (to_bing_str vb))]
           | None => q
           end in
  let q := match culture pq with
           | Some c => dict_update q [("c", PStr c)]
           | None => q
           end in
  let q := match user_ip pq with
           | Some ip => dict_update q [("uip", PStr ip)]
           | None => q
           end in
  q ← match user_lat pq, user_lon pq with
      | Some lat, Some lon =>
          a ← percent_f lat;
          b ← percent_f lon;
          Ok (dict_update q [("ul", PStr (a +:+ "," +:+ b))])
      | _, _ => Ok q
      end;
  key ← setting self "api_key";
  let addl_settings := [("key", PStr key)] in
  let q := dict_update q addl_settings in
  endpoint ← str_attr (cls self) "_endpoint";
  Ok (endpoint, q).

(** One turn of the loop of [Bing._geocode]. *)
Definition Bing_candidate (self : service) (r : pyval)
  : result (gmap string pyval) :=
  let c := Candidate in
  v ← getitem r "entityType";
  let c := setattr c "entity" v in
  gps ← getitem r "geocodePoints";
  gp ← getindex gps 0;
  v ← getitem gp "calculationMethod";
  let c := setattr c "locator" v in
  v ← getitem r "confidence";
  let c := setattr c "confidence" v in
  v ← getitem r "name";
  let c := setattr c "match_addr" v in
  gps ← getitem r "geocodePoints";
  gp ← getindex gps 0;
  xy ← getitem gp "coordinates";
  v ← getindex xy 1;
  let c := setattr c "x" v in
  gps ← getitem r "geocodePoints";
  gp ← getindex gps 0;
  xy ← getitem gp "coordinates";
  v ← getindex xy 0;
  let c := setattr c "y" v in
  let c := setattr c "wkid" (PInt 4326) in
  v ← getitem r "address";
  let c := setattr c "address" v in
  let c := setattr c "geoservice" (PStr (class_name (cls self))) in
  Ok c.

(** The rows the loop of [Bing._geocode] visits. *)
Definition Bing_rows (response_obj : pyval) : result (list pyval) :=
  sets ← getitem response_obj "resourceSets";
  set0 ← getindex sets 0;
  resources ← getitem set0 "resources";
  iterate resources.

Definition Bing_geocode (self : service) (pq : PlaceQuery)
  : result (list (gmap string pyval)) :=
  req ← Bing_request self pq;
  response_obj ← _get_json_obj (fst req) (snd req);
  rows ← Bing_rows response_obj;
  mapM (Bing_candidate self) rows.

(** ** USCensus *)

Definition USCensus_request (self : service) (pq : PlaceQuery)
  : result (string * pydict) :=
  let q := [("format", PStr "json");
            ("benchmark", PStr "Public_AR_Current")] in
  base ← str_attr (cls self) "_endpoint_base";
  if negb (String.eqb (query pq) "")
  then
    let _this_endpoint := base +:+ "onelineaddress" in
    let q := dict_set "address" (PStr (query pq)) q in
    Ok (_this_endpoint, q)
  else
    let _this_endpoint := base +:+ "address" in
    let q := dict_set "street" (PStr (address pq)) q in
    let q := dict_set "city" (PStr (city pq)) q in
    let q := dict_set "state" (PStr (state pq)) q in
    let q := dict_set "zip" (PStr (postal pq)) q in
    Ok (_this_endpoint, q).

(** [v.get(k, '')]: only a dict has the method. *)
Definition get_or_empty (v : pyval) (k : string) : result pyval :=
  match v with
  | PDict d => Ok (default (PStr "") (dict_get k d))
  | _ => Err AttributeError
  end.

(** The run of decimal digits a string starts with. *)
Fixpoint leading_digits (s : string) : string :=
  match s with
  | "" => ""
  | String c s' => if isdigit c then String c (leading_digits s') else ""
  end.

(** [re.match(r'([0-9]+)', s)]: the text of group 0, if the match is. *)
Definition match_digits (s : string) : option string :=
  match leading_digits s with
  | "" => None
  | group0 => Some group0
  end.

Definition ordered_fields : list string :=
  ["preQualifier"; "preDirection"; "preType"; "streetName";
   "suffixType"; "suffixDirection"; "suffixQualifier"].

(** The three [return] statements of [_street_addr_from_response]. *)
Inductive return_site : Type :=
| return_give_up
| return_joined
| return_else.

(** [USCensus._street_addr_from_response], with the [return] it left by. *)
Definition USCensus_street_addr_from_response_at (match_ : pyval)
  : result (return_site * pyval) :=
  matched ← getitem match_ "matchedAddress";
  addr_num_re ← match matched with
                | PStr s => Ok (match_digits s)
                | _ => Err TypeError
                end;
  match addr_num_re with
  | None => Ok (return_give_up, PStr "")
  | Some group0 =>
      let res := [PStr group0] in
      fields ← mapM (fun field =>
                       comps ← getitem match_ "addressComponents";
                       get_or_empty comps field) ordered_fields;
      let res := res ++ fields in
      if existsb truthy res
      then s ← join_vals " " (filter (fun s => Is_true (truthy s)) res);
           Ok (return_joined, PStr s)
      else Ok (return_else, PStr "")
  end.

(** [USCensus._street_addr_from_response] *)
Definition USCensus_street_addr_from_response (match_ : pyval)
  : result pyval :=
  snd <$> USCensus_street_addr_from_response_at match_.

(** One turn of the loop of [USCensus._geocode]. *)
Definition USCensus_candidate (self : service) (r : pyval)
  : result (gmap string pyval) :=
  let c := Candidate in
  v ← getitem r "matchedAddress";
  let c := setattr c "match_addr" v in
  xy ← getitem r "coordinates";
  v ← getitem xy "x";
  let c := setattr c "x" v in
  xy ← getitem r "coordinates";
  v ← getitem xy "y";
  let c := setattr c "y" v in
  let c := setattr c "geoservice" (PStr (class_name (cls self))) in
  comps ← getitem r "addressComponents";
  v ← get_or_empty comps "city";
  let c := setattr c "match_city" v in
  comps ← getitem r "addressComponents";
  v ← get_or_empty comps "state";
  let c := setattr c "match_region" v in
  comps ← getitem r "addressComponents";
  v ← get_or_empty comps "zip";
  let c := setattr c "match_postal" v in
  let c := setattr c "match_subregion" (PStr "") in
  let c := setattr c "match_country" (PStr "USA") in
  v ← USCensus_street_addr_from_response r;
  let c := setattr c "match_streetaddr" v in
  Ok c.

Definition USCensus_rows (response_obj : pyval) : result (list pyval) :=
  res ← getitem response_obj "result";
  matches ← getitem res "addressMatches";
  iterate matches.

Definition USCensus_geocode (self : service) (pq : PlaceQuery)
  : result (list (gmap string pyval)) :=
  req ← USCensus_request self pq;
  response_obj ← _get_json_obj (fst req) (snd req);
  rows ← USCensus_rows response_obj;
  mapM (USCensus_candidate self) rows.

(** ** MapQuest (and its subclasses MapQuestSSL, MapQuestOpen) *)

(** Add key/value pair to given dict only if value is not empty string. *)
Definition get_appended_location (location kwargs : list (string * string))
  : list (string * string) :=
  fold_left (fun location kw =>
               if negb (String.eqb (snd kw) "")
               then dict_update location [kw]
               else location) kwargs location.

(** The [location] dict [MapQuest._geocode] serialises. *)
Definition MapQuest_location (pq : PlaceQuery) : list (string * string) :=
  let location := [] in
  let location := get_appended_location location [("street", query pq)] in
  let location :=
    match location with
    | [] => get_appended_location location [("street", address pq)]
    | _ => location
    end in
  get_appended_location location
    [("city", city pq); ("county", subregion pq); ("state", state pq);
     ("postalCode", postal pq); ("country", country pq)].

Definition MapQuest_request (self : service) (pq : PlaceQuery)
  : result (string * pydict) :=
  let json_ := json_dumps_location (MapQuest_location pq) in
  key ← setting self "api_key";
  let q := [("key", PStr (unquote key)); ("json", PStr json_)] in
  let q := match viewbox pq with
           | Some vb => dict_update q [("viewbox", PStr (to_mapquest_str vb))]
           | None => q
           end in
  endpoint ← str_attr (cls self) "_endpoint";
  Ok (endpoint, q).

Definition match_addr_elements : list string :=
  ["street"; "adminArea5"; "adminArea3"; "adminArea2"; "postalCode"].

(** [[r[k] for k in match_addr_elements if k in r]] *)
Fixpoint present_elements (r : pyval) (ks : list string)
  : result (list pyval) :=
  match ks with
  | [] => Ok []
  | k :: ks' =>
      b ← contains k r;
      if b : bool
      then v ← getitem r k; vs ← present_elements r ks'; Ok (v :: vs)
      else present_elements r ks'
  end.

(** One turn of the loop of [MapQuest._geocode]. *)
Definition MapQuest_candidate (self : service) (r : pyval)
  : result (gmap string pyval) :=
  let c := Candidate in
  v ← getitem r "geocodeQuality";
  let c := setattr c "locator" v in
  v ← getitem r "geocodeQualityCode";
  let c := setattr c "confidence" v in
  elements ← present_elements r match_addr_elements;
  addr ← join_vals ", " elements;
  let c := setattr c "match_addr" (PStr addr) in
  ll ← getitem r "latLng";
  v ← getitem ll "lng";
  let c := setattr c "x" v in
  ll ← getitem r "latLng";
  v ← getitem ll "lat";
  let c := setattr c "y" v in
  let c := setattr c "wkid" (PInt 4326) in
  let c := setattr c "geoservice" (PStr (class_name (cls self))) in
  Ok c.

Definition MapQuest_rows (response_obj : pyval) : result (list pyval) :=
  results ← getitem response_obj "results";
  res0 ← getindex results 0;
  locations ← getitem res0 "locations";
  iterate locations.

Definition MapQuest_geocode (self : service) (pq : PlaceQuery)
  : result (list (gmap string pyval)) :=
  req ← MapQuest_request self pq;
  response_obj ← _get_json_obj (fst req) (snd req);
  rows ← MapQuest_rows response_obj;
  mapM (MapQuest_candidate self) rows.

(** ** Nominatim *)

Definition Nominatim_request (self : service) (pq : PlaceQuery)
  : result (string * pydict) :=
  let q := [("q", PStr (query pq));
            ("countrycodes", PStr (country pq));
            ("format", PStr "json")] in
  let q := match viewbox pq with
           | Some vb =>
               dict_update q [("viewbox", PStr (to_mapquest_str vb));
                              ("bounded", PBool (bounded pq))]
           | None => q
           end in
  endpoint ← str_attr (cls self) "_endpoint";
  Ok (endpoint, q).

(** [self._wkid] *)
Definition self_wkid (self : service) : result pyval :=
  match class_attr (cls self) "_wkid" with
  | Some (CInt z) => Ok (PInt z)
  | Some (CStr s) => Ok (PStr s)
  | Some _ => Err TypeError
  | None => Err AttributeError
  end.

(** One turn of the loop of [Nominatim._geocode]. *)
Definition Nominatim_candidate (self : service) (r : pyval)
  : result (gmap string pyval) :=
  let c := Candidate in
  let c := setattr c "locator" (PStr "parcel") in
  cl ← getitem r "class";
  ty ← getitem r "type";
  let c := setattr c "entity" (PStr (percent_s cl +:+ "." +:+ percent_s ty)) in
  v ← getitem r "display_name";
  let c := setattr c "match_addr" v in
  lon ← getitem r "lon";
  v ← float lon;
  let c := setattr c "x" v in
  lat ← getitem r "lat";
  v ← float lat;
  let c := setattr c "y" v in
  v ← self_wkid self;
  let c := setattr c "wkid" v in
  let c := setattr c "geoservice" (PStr (class_name (cls self))) in
  Ok c.

Definition Nominatim_geocode (self : service) (pq : PlaceQuery)
  : result (list (gmap string pyval)) :=
  req ← Nominatim_request self pq;
  response_obj ← _get_json_obj (fst req) (snd req);
  rows ← iterate response_obj;
  mapM (Nominatim_candidate self) rows.

(** ** Method resolution *)

(** [self._geocode(pq)] *)
Definition _geocode (self : service) (pq : PlaceQuery)
  : result (list (gmap string pyval)) :=
  match cls self with
  | Bing => Bing_geocode self pq
  | USCensus => USCensus_geocode self pq
  | MapQuest | MapQuestSSL | MapQuestOpen => MapQuest_geocode self pq
  | Nominatim => Nominatim_geocode self pq
  end.

(** The request [self._geocode(pq)] sends. *)
Definition request (self : service) (pq : PlaceQuery)
  : result (string * pydict) :=
  match cls self with
  | Bing => Bing_request self pq
  | USCensus => USCensus_request self pq
  | MapQuest | MapQuestSSL | MapQuestOpen => MapQuest_request self pq
  | Nominatim => Nominatim_request self pq
  end.

(** The rows of a response the loop of [self._geocode] visits. *)
Definition rows_of (self : service) (response_obj : pyval)
  : result (list pyval) :=
  match cls self with
  | Bing => Bing_rows response_obj
  | USCensus => USCensus_rows response_obj
  | MapQuest | MapQuestSSL | MapQuestOpen => MapQuest_rows response_obj
  | Nominatim => iterate response_obj
  end.

(** The body of the loop of [self._geocode]. *)
Definition candidate_of (self : service) (r : pyval)
  : result (gmap string pyval) :=
  match cls self with
  | Bing => Bing_candidate self r
  | USCensus => USCensus_candidate self r
  | MapQuest | MapQuestSSL | MapQuestOpen => MapQuest_candidate self r
  | Nominatim => Nominatim_candidate self r
  end.

(** ** Where a row is read

    A path into a row: the subscripts applied one after the other. *)

Inductive step : Type :=
| Key (k : string)
| Idx (i : nat).

Fixpoint follow (v : pyval) (path : list step) : result pyval :=
  match path with
  | [] => Ok v
  | Key k :: path' => v' ← getitem v k; follow v' path'
  | Idx i :: path' => v' ← getindex v i; follow v' path'
  end.

(** The subscripts the loop body of each adapter applies to a row without
    a guard. *)
Definition required_paths (c : service_class) : list (list step) :=
  match c with
  | Bing =>
      [ [Key "entityType"];
        [Key "geocodePoints"; Idx 0; Key "calculationMethod"];
        [Key "confidence"];
        [Key "name"];
        [Key "geocodePoints"; Idx 0; Key "coordinates"; Idx 1];
        [Key "geocodePoints"; Idx 0; Key "coordinates"; Idx 0];
        [Key "address"] ]
  | USCensus =>
      [ [Key "matchedAddress"];
        [Key "coordinates"; Key "x"];
        [Key "coordinates"; Key "y"];
        [Key "addressComponents"] ]
  | MapQuest | MapQuestSSL | MapQuestOpen =>
      [ [Key "geocodeQuality"];
        [Key "geocodeQualityCode"];
        [Key "latLng"; Key "lng"];
        [Key "latLng"; Key "lat"] ]
  | Nominatim =>
      [ [Key "class"]; [Key "type"]; [Key "display_name"];
        [Key "lon"]; [Key "lat"] ]
  end.

(** Where each adapter reads the longitude and the latitude of a row. *)
Definition x_path (c : service_class) : list step :=
  match c with
  | Bing => [Key "geocodePoints"; Idx 0; Key "coordinates"; Idx 1]
  | USCensus => [Key "coordinates"; Key "x"]
  | MapQuest | MapQuestSSL | MapQuestOpen => [Key "latLng"; Key "lng"]
  | Nominatim => [Key "lon"]
  end.

Definition y_path (c : service_class) : list step :=
  match c with
  | Bing => [Key "geocodePoints"; Idx 0; Key "coordinates"; Idx 0]
  | USCensus => [Key "coordinates"; Key "y"]
  | MapQuest | MapQuestSSL | MapQuestOpen => [Key "latLng"; Key "lat"]
  | Nominatim => [Key "lat"]
  end.

(** [isinstance(v, (int, float))] *)
Definition numeric (v : pyval) : bool :=
  match v with
  | PInt _ | PFloat _ | PBool _ => true
  | _ => false
  end.

(** How the candidates of a row relate to the coordinates in the row:
    Nominatim converts them with [float], the others store them as read. *)
Definition coordinates_of (c0 : service_class) (r : pyval)
    (c : gmap string pyval) : Prop :=
  ∃ vx vy x y,
    follow r (x_path c0) = Ok vx ∧ follow r (y_path c0) = Ok vy ∧
    c !! "x" = Some x ∧ c !! "y" = Some y ∧
    match c0 with
    | Nominatim =>
        float vx = Ok x ∧ float vy = Ok y ∧
        (∃ f, x = PFloat f) ∧ (∃ f, y = PFloat f)
    | _ => x = vx ∧ y = vy
    end.

(** What [USCensus._geocode] promises about the address components of the
    candidate [c] it builds from the row [r]. *)
Definition census_components (r : pyval) (c : gmap string pyval) : Prop :=
  c !! "match_country" = Some (PStr "USA") ∧
  c !! "match_subregion" = Some (PStr "") ∧
  ∃ d, getitem r "addressComponents" = Ok (PDict d) ∧
       c !! "match_city" = Some (default (PStr "") (dict_get "city" d)) ∧
       c !! "match_region" = Some (default (PStr "") (dict_get "state" d)) ∧
       c !! "match_postal" = Some (default (PStr "") (dict_get "zip" d)).

(** ** What a request is built from *)

(** The attributes of a query. *)
Inductive field : Type :=
| f_query | f_address | f_city | f_state | f_postal | f_country
| f_subregion | f_viewbox | f_bounded | f_culture | f_user_ip
| f_user_lat | f_user_lon.

(** Two queries agree on an attribute. *)
Definition field_eq (f : field) (pq1 pq2 : PlaceQuery) : Prop :=
  match f with
  | f_query => query pq1 = query pq2
  | f_address => address pq1 = address pq2
  | f_city => city pq1 = city pq2
  | f_state => state pq1 = state pq2
  | f_postal => postal pq1 = postal pq2
  | f_country => country pq1 = country pq2
  | f_subregion => subregion pq1 = subregion pq2
  | f_viewbox => viewbox pq1 = viewbox pq2
  | f_bounded => bounded pq1 = bounded pq2
  | f_culture => culture pq1 = culture pq2
  | f_user_ip => user_ip pq1 = user_ip pq2
  | f_user_lat => user_lat pq1 = user_lat pq2
  | f_user_lon => user_lon pq1 = user_lon pq2
  end.

Definition agree_on (fs : list field) (pq1 pq2 : PlaceQuery) : Prop :=
  Forall (λ f, field_eq f pq1 pq2) fs.

(** Whether the adapter takes the free-form string: Bing tests the
    stripped string, USCensus and MapQuest the string itself, Nominatim
    has no test. *)
Definition free_form (c : service_class) (pq : PlaceQuery) : bool :=
  match c with
  | Bing => negb (String.eqb (strip (query pq)) "")
  | USCensus | MapQuest | MapQuestSSL | MapQuestOpen =>
      negb (String.eqb (query pq) "")
  | Nominatim => true
  end.

(** The attributes the request of each adapter is built from, on the
    free-form side and on the structured side. *)
Definition sources (c : service_class) (free : bool) : list field :=
  match c, free with
  | Bing, true =>
      [f_query; f_viewbox; f_culture; f_user_ip; f_user_lat; f_user_lon]
  | Bing, false =>
      [f_address; f_city; f_state; f_postal; f_country;
       f_viewbox; f_culture; f_user_ip; f_user_lat; f_user_lon]
  | USCensus, true => [f_query]
  | USCensus, false => [f_address; f_city; f_state; f_postal]
  | (MapQuest | MapQuestSSL | MapQuestOpen), true =>
      [f_query; f_city; f_subregion; f_state; f_postal; f_country;
       f_viewbox]
  | (MapQuest | MapQuestSSL | MapQuestOpen), false =>
      [f_address; f_city; f_subregion; f_state; f_postal; f_country;
       f_viewbox]
  | Nominatim, _ => [f_query; f_country; f_viewbox; f_bounded]
  end.

(** The address parameters the request of each adapter carries, by name
    and in order.  Bing: the free-form string alone when stripping leaves
    something of it, else the five structured fields.  USCensus: the
    free-form string alone when it is not empty, else the address, city,
    state and postal code.  MapQuest: as street the free-form string, or
    the address when the free-form string is empty, then the city,
    subregion, state, postal code and country, each only when it is not
    empty.  Nominatim: the free-form string and the country. *)
Definition address_parameters (c : service_class) (pq : PlaceQuery)
  : list (string * string) :=
  match c with
  | Bing =>
      if String.eqb (strip (query pq)) ""
      then [("addressLine", address pq); ("locality", city pq);
            ("adminDistrict", state pq); ("postalCode", postal pq);
            ("countryRegion", country pq)]
      else [("query", query pq)]
  | USCensus =>
      if String.eqb (query pq) ""
      then [("street", address pq); ("city", city pq);
            ("state", state pq); ("zip", postal pq)]
      else [("address", query pq)]
  | MapQuest | MapQuestSSL | MapQuestOpen =>
      List.filter (λ kv, negb (String.eqb (snd kv) ""))
        [("street",
          if String.eqb (query pq) "" then address pq else query pq);
         ("city", city pq); ("county", subregion pq); ("state", state pq);
         ("postalCode", postal pq); ("country", country pq)]
  | Nominatim => [("q", query pq); ("countrycodes", country pq)]
  end.

(** A dict of strings, as a dict of values. *)
Definition str_values (d : list (string * string)) : pydict :=
  map (λ kv, (fst kv, PStr (snd kv))) d.

(** What the request [req] of [self] for the query [pq] carries: its
    address parameters are those of [address_parameters], with their
    values.  For USCensus, MapQuest and Nominatim this is the whole list of
    parameters (for USCensus the endpoint too, which follows the side
    taken); for Bing the address parameters come first and the rest are
    the options and the key. *)
Definition carries (self : service) (pq : PlaceQuery)
    (req : string * pydict) : Prop :=
  match cls self with
  | Bing =>
      ∃ extras,
        snd req = str_values (address_parameters Bing pq) ++ extras ∧
        Forall (λ kv, fst kv ∈ ["umv"; "c"; "uip"; "ul"; "key"]) extras
  | USCensus =>
      req = ("http://geocoding.geo.census.gov/geocoder/locations/"
             +:+ (if String.eqb (query pq) ""
                  then "address" else "onelineaddress"),
             [("format", PStr "json");
              ("benchmark", PStr "Public_AR_Current")]
             ++ str_values (address_parameters USCensus pq))
  | MapQuest | MapQuestSSL | MapQuestOpen =>
      ∃ key,
        dict_get "api_key" (_settings self) = Some key ∧
        snd req
        = [("key", PStr (unquote key));
           ("json", PStr (json_dumps_location
                            (address_parameters MapQuest pq)))]
          ++ match viewbox pq with
             | Some vb => [("viewbox", PStr (to_mapquest_str vb))]
             | None => []
             end
  | Nominatim =>
      snd req
      = str_values (address_parameters Nominatim pq)
        ++ [("format", PStr "json")]
        ++ match viewbox pq with
           | Some vb => [("viewbox", PStr (to_mapquest_str vb));
                         ("bounded", PBool (bounded pq))]
           | None => []
           end
  end.

(** A string begins with a decimal digit. *)
Definition begins_with_digit (s : string) : bool :=
  match s with
  | "" => false
  | String c _ => isdigit c
  end.

(** The ordered address components of a row whose components are [d],
    the absent ones as ''. *)
Definition ordered_components (d : pydict) : list pyval :=
  map (λ field, default (PStr "") (dict_get field d)) ordered_fields.

(** ** The ordering convention of a postprocessor chain

    Filters and excludes, then renamers and migrators, then sorters, then
    group-deduplication; [UseHighScoreIfAtLeast] belongs to no group. *)

Inductive stage_group : Type :=
| filtering | renaming | sorting | grouping.

Definition group_rank (g : stage_group) : nat :=
  match g with
  | filtering => 0
  | renaming => 1
  | sorting => 2
  | grouping => 3
  end.

Definition group_of (p : postprocessor) : option stage_group :=
  match p with
  | AttrFilter _ _ _ | AttrExclude _ _ => Some filtering
  | AttrRename _ _ | AttrMigrator _ _ _ => Some renaming
  | AttrSorter _ _ | ScoreSorter => Some sorting
  | GroupBy _ => Some grouping
  | UseHighScoreIfAtLeast _ => None
  end.

(** [q] may stand after [p]: its group is not an earlier one. *)
Definition may_follow (p q : postprocessor) : bool :=
  match group_of p, group_of q with
  | Some a, Some b => (group_rank a <=? group_rank b)%nat
  | _, _ => true
  end.

(** No stage of the chain stands after a stage of a later group. *)
Fixpoint convention_ordered (l : list postprocessor) : bool :=
  match l with
  | [] => true
  | p :: l' => forallb (may_follow p) l' && convention_ordered l'
  end.

(** The name of the class of a stage. *)
Definition stage_name (p : postprocessor) : string :=
  match p with
  | AttrFilter _ _ _ => "AttrFilter"
  | AttrExclude _ _ => "AttrExclude"
  | AttrRename _ _ => "AttrRename"
  | AttrSorter _ _ => "AttrSorter"
  | AttrMigrator _ _ _ => "AttrMigrator"
  | UseHighScoreIfAtLeast _ => "UseHighScoreIfAtLeast"
  | GroupBy _ => "GroupBy"
  | ScoreSorter => "ScoreSorter"
  end.

(** The values a class body binds to a name, in the order of the body. *)
Definition bindings (name : string) (body : list (string * class_value))
  : list class_value :=
  map snd (filter (λ kv, fst kv = name) body).

(** ** The constructor of candidates *)

(** Modelled from the spec: the constructor [Candidate()] of
    [omgeo.places], of which this file has only the import.  The spec
    gives a candidate "coordinates in a stated spatial reference, default
    WKID 4326" and names no other default, so the object the constructor
    returns has [wkid] 4326 and nothing else. *)
Definition Candidate_spec : gmap string pyval :=
  {[ "wkid" := PInt 4326 ]}.

(** ** Sample data *)

(** A transport that answers every request with [response_obj]. *)
Definition answering (response_obj : pyval)
  : string → pydict → result pyval :=
  λ _ _, Ok response_obj.

(** [str] of the values that are not strings does not matter in the
    samples. *)
Definition no_str : pyval → string := λ _, "?".

(** The API key of the samples has no percent sign: [unquote] leaves it. *)
Definition no_unquote : string → string := λ s, s.

Definition service_of (c : service_class) : service :=
  {| cls := c; _settings := [("api_key", "secret")] |}.

(** [PlaceQuery(query=..., address=..., ...)] with no viewbox and none of
    the optional attributes. *)
Definition place_query (query address city state postal country : string)
  : PlaceQuery :=
  {| query := query; address := address; city := city; state := state;
     postal := postal; country := country; subregion := "";
     viewbox := None; bounded := false; culture := None; user_ip := None;
     user_lat := None; user_lon := None |}.

Definition redmond : PlaceQuery :=
  place_query "1 Microsoft Way, Redmond" "" "" "" "" "".

Definition white_house : PlaceQuery :=
  place_query "1600 Pennsylvania Ave NW, Washington DC" "" "" "" "" "".

Definition wolf_building : PlaceQuery :=
  place_query "340 N 12th St Philadelphia" "" "" "" "" "us".

Definition main_st (city : string) : PlaceQuery :=
  place_query "1 Main St" "" city "" "" "".

(** A query whose free-form string is one space. *)
Definition blank_free_form : PlaceQuery :=
  place_query " " "1 Main St" "Springfield" "IL" "62701" "US".

Definition Bing_response (rows : list pyval) : pyval :=
  PDict [("resourceSets", PList [PDict [("resources", PList rows)]])].

Definition Bing_row (lat lon : pyval) : pyval :=
  PDict [("entityType", PStr "Address");
         ("geocodePoints",
          PList [PDict [("calculationMethod", PStr "Parcel");
                        ("coordinates", PList [lat; lon])]]);
         ("confidence", PStr "High");
         ("name", PStr "1 Microsoft Way, Redmond, WA 98052");
         ("address", PDict [("locality", PStr "Redmond")])].

(** A Bing resource with no [confidence]. *)
Definition Bing_row_no_confidence : pyval :=
  PDict [("entityType", PStr "Address");
         ("geocodePoints",
          PList [PDict [("calculationMethod", PStr "Parcel");
                        ("coordinates", PList [PInt 47; PInt (-122)])]]);
         ("name", PStr "1 Microsoft Way, Redmond, WA 98052");
         ("address", PDict [("locality", PStr "Redmond")])].

Definition Census_response (rows : list pyval) : pyval :=
  PDict [("result", PDict [("addressMatches", PList rows)])].

Definition Census_row (x y : pyval) : pyval :=
  PDict [("matchedAddress",
          PStr "1600 PENNSYLVANIA AVE NW, WASHINGTON, DC, 20500");
         ("coordinates", PDict [("x", x); ("y", y)]);
         ("addressComponents",
          PDict [("fromAddress", PStr "1600"); ("toAddress", PStr "1698");
                 ("streetName", PStr "PENNSYLVANIA");
                 ("suffixType", PStr "AVE");
                 ("suffixDirection", PStr "NW");
                 ("city", PStr "WASHINGTON"); ("state", PStr "DC")])].

(** A USCensus match whose address begins with digits and whose street
    name is the number 5, not a string. *)
Definition Census_row_street_number : pyval :=
  PDict [("matchedAddress", PStr "12 OAK");
         ("coordinates", PDict [("x", PInt (-77)); ("y", PInt 38)]);
         ("addressComponents", PDict [("streetName", PInt 5)])].

Definition MapQuest_response (rows : list pyval) : pyval :=
  PDict [("results", PList [PDict [("locations", PList rows)]])].

(** A MapQuest location with none of the matched-address elements. *)
Definition MapQuest_bare_row (lat lng : pyval) : pyval :=
  PDict [("geocodeQuality", PStr "COUNTRY");
         ("geocodeQualityCode", PStr "A1XAX");
         ("latLng", PDict [("lat", lat); ("lng", lng)])].

Definition Nominatim_row : pyval :=
  PDict [("class", PStr "place"); ("type", PStr "house");
         ("display_name", PStr "340, N 12th St, Philadelphia");
         ("lon", PStr "-75.158"); ("lat", PStr "39.958")].

(** The values of the attributes [names] of each candidate returned. *)
Definition observe (names : list string)
    (m : result (list (gmap string pyval)))
  : result (list (list (option pyval))) :=
  map (λ c : gmap string pyval, map (λ n, c !! n) names) <$> m.

(** ** Further statements about the adapters *)

(** The key under which Bing and MapQuest wrap their rows in a list of
    which only the first item is read. *)
Definition outer_key (c : service_class) : option string :=
  match c with
  | Bing => Some "resourceSets"
  | MapQuest | MapQuestSSL | MapQuestOpen => Some "results"
  | USCensus | Nominatim => None
  end.

(** The key of the rows inside that first item. *)
Definition inner_key (c : service_class) : string :=
  match c with
  | Bing => "resources"
  | _ => "locations"
  end.

(** The adapter reads [self._settings['api_key']]. *)
Definition reads_api_key (c : service_class) : bool :=
  match c with
  | Bing | MapQuest | MapQuestSSL | MapQuestOpen => true
  | USCensus | Nominatim => false
  end.

(** The attributes the loop body of each adapter assigns. *)
Definition assigned (c : service_class) : list string :=
  match c with
  | Bing =>
      ["entity"; "locator"; "confidence"; "match_addr"; "x"; "y"; "wkid";
       "address"; "geoservice"]
  | USCensus =>
      ["match_addr"; "x"; "y"; "geoservice"; "match_city"; "match_region";
       "match_postal"; "match_subregion"; "match_country";
       "match_streetaddr"]
  | MapQuest | MapQuestSSL | MapQuestOpen =>
      ["locator"; "confidence"; "match_addr"; "x"; "y"; "wkid";
       "geoservice"]
  | Nominatim =>
      ["locator"; "entity"; "match_addr"; "x"; "y"; "wkid"; "geoservice"]
  end.

(** The attributes an adapter copies from a row as it finds them, each
    with the place of the row it is read from. *)
Definition copied (c : service_class) : list (string * list step) :=
  match c with
  | Bing =>
      [ ("entity", [Key "entityType"]);
        ("locator", [Key "geocodePoints"; Idx 0; Key "calculationMethod"]);
        ("confidence", [Key "confidence"]);
        ("match_addr", [Key "name"]);
        ("x", [Key "geocodePoints"; Idx 0; Key "coordinates"; Idx 1]);
        ("y", [Key "geocodePoints"; Idx 0; Key "coordinates"; Idx 0]);
        ("address", [Key "address"]) ]
  | USCensus =>
      [ ("match_addr", [Key "matchedAddress"]);
        ("x", [Key "coordinates"; Key "x"]);
        ("y", [Key "coordinates"; Key "y"]) ]
  | MapQuest | MapQuestSSL | MapQuestOpen =>
      [ ("locator", [Key "geocodeQuality"]);
        ("confidence", [Key "geocodeQualityCode"]);
        ("x", [Key "latLng"; Key "lng"]);
        ("y", [Key "latLng"; Key "lat"]) ]
  | Nominatim =>
      [ ("match_addr", [Key "display_name"]) ]
  end.

(** The candidate [c] has, under each copied attribute, the value the row
    [r] has at the place it is read from. *)
Definition copies (c0 : service_class) (r : pyval) (c : gmap string pyval)
  : Prop :=
  Forall (λ ap : string * list step,
            ∃ v, follow r (snd ap) = Ok v ∧ c !! fst ap = Some v)
    (copied c0).

(** The candidate [c] has every assigned attribute, and every other
    attribute as the constructor left it. *)
Definition assigns_only (c0 : service_class) (c : gmap string pyval)
  : Prop :=
  (∀ n, n ∈ assigned c0 → is_Some (c !! n)) ∧
  (∀ n, n ∉ assigned c0 → c !! n = Candidate !! n).

(** A string, unless it is empty. *)
Definition nonempty (s : string) : option string :=
  if String.eqb s "" then None else Some s.

(** The keyword arguments of the last call of [get_appended_location]. *)
Definition location_kwargs (pq : PlaceQuery) : list (string * string) :=
  [("city", city pq); ("county", subregion pq); ("state", state pq);
   ("postalCode", postal pq); ("country", country pq)].

(** The class is [MapQuest] or one of its subclasses. *)
Definition MapQuest_family (c : service_class) : bool :=
  match c with
  | MapQuest | MapQuestSSL | MapQuestOpen => true
  | _ => false
  end.

(** What Nominatim makes of the row [r] in the candidate [c]. *)
Definition Nominatim_fields (r : pyval) (c : gmap string pyval) : Prop :=
  c !! "locator" = Some (PStr "parcel") ∧
  ∃ cl ty,
    getitem r "class" = Ok cl ∧ getitem r "type" = Ok ty ∧
    c !! "entity" = Some (PStr (percent_s cl +:+ "." +:+ percent_s ty)).

(** What MapQuest makes of the row [r] in the candidate [c]: the
    matched-address elements the row has, joined in their fixed order. *)
Definition MapQuest_address (r : pyval) (c : gmap string pyval) : Prop :=
  ∃ d ss,
    r = PDict d ∧
    map PStr ss = omap (λ k, dict_get k d) match_addr_elements ∧
    c !! "match_addr" = Some (PStr (join ", " ss)).

(** A MapQuest location with a street and a postal code. *)
Definition MapQuest_row (lat lng : pyval) : pyval :=
  PDict [("street", PStr "1 Main St"); ("adminArea3", PStr "IL");
         ("postalCode", PStr "62701");
         ("geocodeQuality", PStr "ADDRESS");
         ("geocodeQualityCode", PStr "L1AAA");
         ("latLng", PDict [("lat", lat); ("lng", lng)])].

(** A service with no settings at all. *)
Definition service_without_settings (c : service_class) : service :=
  {| cls := c; _settings := [] |}.

(** * Properties *)

(** ** The error monad *)

Lemma bind_Ok {A B} (m : result A) (f : A → result B) (b : B) :
  m ≫= f = Ok b ↔ ∃ a, m = Ok a ∧ f a = Ok b.
Proof.
  destruct m as [a|e]; simpl; split.
  - intros Hf. exists a. auto.
  - intros (a' & [= <-] & Hf). exact Hf.
  - discriminate.
  - intros (a' & [=] & _).
Qed.

Lemma fmap_Ok {A B} (m : result A) (f : A → B) (b : B) :
  f <$> m = Ok b ↔ ∃ a, m = Ok a ∧ b = f a.
Proof.
  destruct m as [a|e]; simpl; split.
  - intros [= <-]. eauto.
  - intros (a' & [= <-] & ->). reflexivity.
  - discriminate.
  - intros (a' & [=] & _).
Qed.

Lemma raises_not_Ok {A} (m : result A) :
  raises m ↔ ∀ a, m ≠ Ok a.
Proof.
  destruct m as [a|e]; split.
  - intros [e [=]].
  - intros Hn. destruct (Hn a eq_refl).
  - intros _ a [=].
  - intros _. exists e. reflexivity.
Qed.

Lemma mapM_Ok {A B} (f : A → result B) (l : list A) (k : list B) :
  mapM f l = Ok k ↔ Forall2 (λ x y, f x = Ok y) l k.
Proof.
  revert k. induction l as [|x l IH]; intros k; simpl.
  - split.
    + intros [= <-]. constructor.
    + intros Hk. inversion Hk. reflexivity.
  - split.
    + intros Hm. apply bind_Ok in Hm as (y & Hy & Hm).
      apply bind_Ok in Hm as (k' & Hk' & [= <-]).
      constructor; [exact Hy | apply IH, Hk'].
    + intros Hk. inversion Hk as [|? y ? k' Hy Hk']; subst.
      rewrite Hy. simpl. apply IH in Hk'. rewrite Hk'. reflexivity.
Qed.

Lemma mapM_raises {A B} (f : A → result B) (l : list A) (x : A) :
  x ∈ l → raises (f x) → raises (mapM f l).
Proof.
  intros Hin Hx. apply raises_not_Ok. intros k Hk.
  apply mapM_Ok in Hk.
  apply list_elem_of_lookup in Hin as [i Hi].
  destruct (Forall2_lookup_l _ _ _ i x Hk Hi) as (y & _ & Hy).
  destruct Hx as [e He]. congruence.
Qed.

Lemma is_Ok_the_list {A} (m : result (list A)) :
  is_Ok m = true → m = Ok (the_list m).
Proof. destruct m; [reflexivity|discriminate]. Qed.

(** Splitting a hypothesis [m ≫= f = Ok b] into its steps. *)
Ltac steps H :=
  repeat match type of H with
         | _ ≫= _ = Ok _ =>
             let a := fresh "v" in
             let Ha := fresh "Hv" in
             apply bind_Ok in H as (a & Ha & H)
         | (let _ := _ in _) = _ => cbv zeta in H
         end.

(** ** How [_geocode] is put together *)

Lemma _geocode_unfold (self : service) (pq : PlaceQuery) :
  _geocode self pq =
    req ← request self pq;
    response_obj ← _get_json_obj (fst req) (snd req);
    rows ← rows_of self response_obj;
    mapM (candidate_of self) rows.
Proof.
  unfold _geocode, request, rows_of, candidate_of.
  unfold Bing_geocode, USCensus_geocode, MapQuest_geocode, Nominatim_geocode.
  destruct (cls self); reflexivity.
Qed.

Lemma _geocode_Ok (self : service) (pq : PlaceQuery)
    (cands : list (gmap string pyval)) :
  _geocode self pq = Ok cands ↔
  ∃ req response_obj rows,
    request self pq = Ok req ∧
    _get_json_obj (fst req) (snd req) = Ok response_obj ∧
    rows_of self response_obj = Ok rows ∧
    Forall2 (λ r c, candidate_of self r = Ok c) rows cands.
Proof.
  rewrite _geocode_unfold. split.
  - intros Hg. steps Hg. apply mapM_Ok in Hg. eauto 10.
  - intros (req & resp & rows & -> & Hresp & Hrows & Hc). simpl.
    rewrite Hresp. simpl. rewrite Hrows. simpl. apply mapM_Ok, Hc.
Qed.

(** ** Attributes of the candidates an adapter builds *)

(** Reading an attribute back from a chain of [setattr]. *)
Ltac read_attr :=
  unfold setattr;
  repeat first [ rewrite lookup_insert_eq
               | rewrite lookup_insert_ne by discriminate ].

(** Two reads of the same place give the same value. *)
Ltac merge_reads :=
  repeat match goal with
         | H1 : ?m = Ok ?a, H2 : ?m = Ok ?a |- _ => clear H2
         | H1 : ?m = Ok ?a, H2 : ?m = Ok ?b |- _ =>
             rewrite H1 in H2; injection H2 as <-
         end.

(** Replaying the reads on a goal that repeats them. *)
Ltac replay_reads :=
  repeat match goal with
         | Hv : ?m = Ok _ |- context [?m] => rewrite Hv; simpl
         end.

(** Opening the loop body of the adapter of [self]. *)
Ltac open_candidate self Hc :=
  unfold candidate_of, Bing_candidate, USCensus_candidate,
    MapQuest_candidate, Nominatim_candidate in Hc;
  let Hcls := fresh "Hcls" in
  destruct (cls self) eqn:Hcls;
  steps Hc; injection Hc as <-; merge_reads.

Lemma candidate_geoservice (self : service) (r : pyval)
    (c : gmap string pyval) :
  candidate_of self r = Ok c →
  c !! "geoservice" = Some (PStr (class_name (cls self))).
Proof.
  intros Hc. open_candidate self Hc; read_attr; reflexivity.
Qed.

Lemma Nominatim_wkid (self : service) (v : pyval) :
  cls self = Nominatim → self_wkid self = Ok v → v = PInt 4326.
Proof.
  unfold self_wkid. intros ->.
  replace (class_attr Nominatim "_wkid") with (Some (CInt 4326))
    by (vm_compute; reflexivity).
  congruence.
Qed.

Lemma candidate_wkid (self : service) (r : pyval) (c : gmap string pyval) :
  candidate_of self r = Ok c →
  c !! "wkid" = match cls self with
                | USCensus => Candidate !! "wkid"
                | _ => Some (PInt 4326)
                end.
Proof.
  intros Hc. open_candidate self Hc; read_attr; try reflexivity.
  f_equal. eapply Nominatim_wkid; eassumption.
Qed.

(** C4: every candidate in the list an adapter returns carries, under
    [geoservice], the name of the class of the adapter. *)
Theorem geoservice_always_set (self : service) (pq : PlaceQuery)
    (cands : list (gmap string pyval)) :
  _geocode self pq = Ok cands →
  Forall (λ c, c !! "geoservice" = Some (PStr (class_name (cls self))))
    cands.
Proof.
  intros Hg. apply _geocode_Ok in Hg as (req & resp & rows & _ & _ & _ & Hc).
  induction Hc as [|r c rows cands Hrc _ IH]; constructor.
  - eapply candidate_geoservice, Hrc.
  - exact IH.
Qed.

(** C8: once the request is built and the transport has delivered a
    response whose rows are none, the adapter returns the empty list. *)
Theorem zero_rows_empty_list (self : service) (pq : PlaceQuery)
    (req : string * pydict) (response_obj : pyval) :
  request self pq = Ok req →
  _get_json_obj (fst req) (snd req) = Ok response_obj →
  rows_of self response_obj = Ok [] →
  _geocode self pq = Ok [].
Proof.
  intros Hreq Hresp Hrows. apply _geocode_Ok.
  exists req, response_obj, []. repeat split; try assumption. constructor.
Qed.

Lemma get_or_empty_Ok (v x : pyval) (k : string) :
  get_or_empty v k = Ok x →
  ∃ d, v = PDict d ∧ x = default (PStr "") (dict_get k d).
Proof.
  destruct v; simpl; try discriminate. intros [= <-]. eauto.
Qed.

Lemma USCensus_candidate_components (self : service) (r : pyval)
    (c : gmap string pyval) :
  USCensus_candidate self r = Ok c → census_components r c.
Proof.
  unfold USCensus_candidate. intros Hc. steps Hc. injection Hc as <-.
  merge_reads.
  repeat match goal with
         | Hg : get_or_empty _ _ = Ok _ |- _ =>
             apply get_or_empty_Ok in Hg as (? & [= ->] & ->)
         end.
  unfold census_components. read_attr. repeat split.
  eexists. split; [eassumption|]. repeat split.
Qed.

(** C10: every candidate [USCensus._geocode] returns has [match_country]
    'USA' and [match_subregion] '', and [match_city], [match_region] and
    [match_postal] set to the row's city, state and zip components, or to
    '' where the row has none. *)
Theorem USCensus_address_components (self : service) (pq : PlaceQuery)
    (cands : list (gmap string pyval)) :
  USCensus_geocode self pq = Ok cands →
  ∃ req response_obj rows,
    USCensus_request self pq = Ok req ∧
    _get_json_obj (fst req) (snd req) = Ok response_obj ∧
    USCensus_rows response_obj = Ok rows ∧
    Forall2 census_components rows cands.
Proof.
  unfold USCensus_geocode. intros Hg. steps Hg. apply mapM_Ok in Hg.
  do 3 eexists. repeat split; try eassumption.
  eapply Forall2_impl; [exact Hg|].
  intros r c. apply USCensus_candidate_components.
Qed.

(** ** Rows with a field missing *)

Lemma candidate_required_paths (self : service) (r : pyval)
    (c : gmap string pyval) :
  candidate_of self r = Ok c →
  Forall (λ p, returned (follow r p)) (required_paths (cls self)).
Proof.
  intros Hc. open_candidate self Hc; unfold required_paths;
    repeat constructor; unfold returned; simpl; replay_reads; eauto.
Qed.

(** C2, as the adapters have it: a response one of whose rows fails a
    subscript its adapter applies without a guard makes [_geocode] raise;
    no list is returned. *)
Theorem missing_required_field_raises (self : service) (pq : PlaceQuery)
    (req : string * pydict) (response_obj : pyval) (rows : list pyval)
    (r : pyval) (p : list step) :
  request self pq = Ok req →
  _get_json_obj (fst req) (snd req) = Ok response_obj →
  rows_of self response_obj = Ok rows →
  r ∈ rows →
  p ∈ required_paths (cls self) →
  raises (follow r p) →
  raises (_geocode self pq).
Proof.
  intros Hreq Hresp Hrows Hr Hp Hmiss.
  rewrite _geocode_unfold, Hreq. simpl. rewrite Hresp. simpl.
  rewrite Hrows. simpl. eapply mapM_raises; [exact Hr|].
  apply raises_not_Ok. intros c Hc.
  apply candidate_required_paths in Hc.
  rewrite Forall_forall in Hc. destruct (Hc p Hp) as [v Hv].
  destruct Hmiss as [e He]. congruence.
Qed.

(** ** Coordinates *)

Lemma float_is_float (v x : pyval) :
  float v = Ok x → ∃ f, x = PFloat f.
Proof.
  destruct v as [|b|z|f|s|l|d]; simpl; try discriminate.
  - destruct (float_of_Z _); [|discriminate]. intros [= <-]. eauto.
  - destruct (float_of_Z _); [|discriminate]. intros [= <-]. eauto.
  - intros [= <-]. eauto.
  - destruct (float_of_str _); [|discriminate]. intros [= <-]. eauto.
Qed.

Lemma candidate_coordinates (self : service) (r : pyval)
    (c : gmap string pyval) :
  candidate_of self r = Ok c → coordinates_of (cls self) r c.
Proof.
  intros Hc. open_candidate self Hc; unfold coordinates_of, x_path, y_path;
    simpl; replay_reads; do 4 eexists; read_attr;
    repeat match goal with |- _ ∧ _ => split end;
    try reflexivity; try eassumption;
    eapply float_is_float; eassumption.
Qed.

(** C5, as the adapters have it: Nominatim stores [float] of the
    longitude and latitude it reads, so its [x] and [y] are floats whatever
    the JSON held; Bing, USCensus and MapQuest store the values as read. *)
Theorem coordinates_as_delivered (self : service) (pq : PlaceQuery)
    (cands : list (gmap string pyval)) :
  _geocode self pq = Ok cands →
  ∃ req response_obj rows,
    request self pq = Ok req ∧
    _get_json_obj (fst req) (snd req) = Ok response_obj ∧
    rows_of self response_obj = Ok rows ∧
    Forall2 (coordinates_of (cls self)) rows cands.
Proof.
  intros Hg. apply _geocode_Ok in Hg as (req & resp & rows & ? & ? & ? & Hc).
  exists req, resp, rows. repeat split; try assumption.
  eapply Forall2_impl; [exact Hc|].
  intros r c. apply candidate_coordinates.
Qed.

(** ** Requests *)

Ltac split_agree :=
  repeat match goal with
         | Ha : agree_on (_ :: _) _ _ |- _ =>
             apply Forall_cons in Ha as [? Ha]
         | Ha : Forall _ (_ :: _) |- _ =>
             apply Forall_cons in Ha as [? Ha]
         end.

(** Rewriting the attributes of one query into those of the other. *)
Ltac use_agreement pq1 pq2 :=
  split_agree; unfold field_eq in *;
  repeat match goal with
         | Hf : ?f pq1 = ?f pq2 |- _ => rewrite Hf; clear Hf
         end.

Lemma Bing_request_sources (self : service) (pq1 pq2 : PlaceQuery) :
  free_form Bing pq1 = free_form Bing pq2 →
  agree_on (sources Bing (free_form Bing pq1)) pq1 pq2 →
  Bing_request self pq1 = Bing_request self pq2.
Proof.
  unfold Bing_request, free_form. intros Hside Ha.
  destruct (String.eqb (strip (query pq1)) ""),
    (String.eqb (strip (query pq2)) ""); try discriminate Hside;
    cbn [negb sources] in Ha; use_agreement pq1 pq2; reflexivity.
Qed.

Lemma USCensus_request_sources (self : service) (pq1 pq2 : PlaceQuery) :
  free_form USCensus pq1 = free_form USCensus pq2 →
  agree_on (sources USCensus (free_form USCensus pq1)) pq1 pq2 →
  USCensus_request self pq1 = USCensus_request self pq2.
Proof.
  unfold USCensus_request, free_form. intros Hside Ha.
  destruct (String.eqb (query pq1) ""),
    (String.eqb (query pq2) ""); try discriminate Hside;
    cbn [negb sources] in Ha; use_agreement pq1 pq2; reflexivity.
Qed.

Lemma MapQuest_location_free_form (pq : PlaceQuery) :
  String.eqb (query pq) "" = false →
  MapQuest_location pq =
    get_appended_location [("street", query pq)]
      [("city", city pq); ("county", subregion pq); ("state", state pq);
       ("postalCode", postal pq); ("country", country pq)].
Proof.
  intros E. unfold MapQuest_location.
  replace (get_appended_location [] [("street", query pq)])
    with [("street", query pq)]; [reflexivity|].
  unfold get_appended_location. cbn [fold_left snd]. rewrite E. reflexivity.
Qed.

Lemma MapQuest_location_structured (pq : PlaceQuery) :
  String.eqb (query pq) "" = true →
  MapQuest_location pq =
    get_appended_location
      (get_appended_location [] [("street", address pq)])
      [("city", city pq); ("county", subregion pq); ("state", state pq);
       ("postalCode", postal pq); ("country", country pq)].
Proof.
  intros E. unfold MapQuest_location.
  replace (get_appended_location [] [("street", query pq)])
    with (@nil (string * string)); [reflexivity|].
  unfold get_appended_location. cbn [fold_left snd]. rewrite E. reflexivity.
Qed.

Lemma MapQuest_request_sources (c : service_class) (self : service)
    (pq1 pq2 : PlaceQuery) :
  c = MapQuest ∨ c = MapQuestSSL ∨ c = MapQuestOpen →
  free_form c pq1 = free_form c pq2 →
  agree_on (sources c (free_form c pq1)) pq1 pq2 →
  MapQuest_request self pq1 = MapQuest_request self pq2.
Proof.
  unfold MapQuest_request.
  intros Hc Hside Ha.
  assert (Hside' : String.eqb (query pq1) "" = String.eqb (query pq2) "").
  { destruct Hc as [->|[->| ->]]; cbn [free_form] in Hside;
      destruct (String.eqb (query pq1) ""), (String.eqb (query pq2) "");
      done. }
  assert (Ha' : agree_on (if String.eqb (query pq1) ""
                          then [f_address; f_city; f_subregion; f_state;
                                f_postal; f_country; f_viewbox]
                          else [f_query; f_city; f_subregion; f_state;
                                f_postal; f_country; f_viewbox]) pq1 pq2).
  { destruct Hc as [->|[->| ->]]; cbn [free_form sources] in Ha;
      destruct (String.eqb (query pq1) ""); exact Ha. }
  clear Hc Hside Ha.
  destruct (String.eqb (query pq1) "") eqn:E1; symmetry in Hside'.
  - rewrite !MapQuest_location_structured by assumption.
    use_agreement pq1 pq2. reflexivity.
  - rewrite !MapQuest_location_free_form by assumption.
    use_agreement pq1 pq2. reflexivity.
Qed.

Lemma Nominatim_request_sources (self : service) (pq1 pq2 : PlaceQuery) :
  agree_on (sources Nominatim true) pq1 pq2 →
  Nominatim_request self pq1 = Nominatim_request self pq2.
Proof.
  unfold Nominatim_request. intros Ha.
  cbn [sources] in Ha. use_agreement pq1 pq2. reflexivity.
Qed.

Lemma MapQuest_location_parameters (pq : PlaceQuery) :
  MapQuest_location pq = address_parameters MapQuest pq.
Proof.
  unfold MapQuest_location, get_appended_location, address_parameters.
  destruct pq as [q a c s p co sr vb b cu ip la lo].
  cbn [query address city state postal country subregion].
  cbn [fold_left List.filter snd fst].
  destruct (String.eqb q "") eqn:Eq; cbn [negb];
    [destruct (String.eqb a "") eqn:Ea|rewrite Eq]; cbn [negb];
    destruct (String.eqb c ""), (String.eqb sr ""), (String.eqb s ""),
      (String.eqb p ""), (String.eqb co ""); reflexivity.
Qed.

Lemma Bing_request_carries (self : service) (pq : PlaceQuery)
    (req : string * pydict) :
  Bing_request self pq = Ok req →
  ∃ extras,
    snd req = str_values (address_parameters Bing pq) ++ extras ∧
    Forall (λ kv, fst kv ∈ ["umv"; "c"; "uip"; "ul"; "key"]) extras.
Proof.
  clear Candidate _get_json_obj unquote str_other.
  unfold Bing_request, setting, address_parameters. cbv zeta.
  destruct (dict_get "api_key" (_settings self)) as [key|];
    [|destruct (user_lat pq) as [lat|], (user_lon pq) as [lon|];
      try discriminate;
      destruct (percent_f lat); try discriminate;
      destruct (percent_f lon); discriminate].
  destruct (String.eqb (strip (query pq)) ""),
    (viewbox pq) as [vb|], (culture pq) as [cu|], (user_ip pq) as [ip|],
    (user_lat pq) as [lat|], (user_lon pq) as [lon|];
    try (destruct (percent_f lat) as [a|]; [|discriminate]);
    try (destruct (percent_f lon) as [b|]; [|discriminate]);
    cbn [mbind result_bind];
    (destruct (str_attr (cls self) "_endpoint") as [ep|]; [|discriminate]);
    cbn [mbind result_bind]; intros [= <-];
    (eexists; split; [reflexivity|]);
    repeat first [ apply List.Forall_nil
                 | apply List.Forall_cons;
                   [apply list_elem_of_In; cbn; tauto|] ].
Qed.

Lemma request_carries (self : service) (pq : PlaceQuery)
    (req : string * pydict) :
  request self pq = Ok req → carries self pq req.
Proof.
  unfold request, carries. destruct (cls self) eqn:Hcls.
  - apply Bing_request_carries.
  - unfold USCensus_request, address_parameters. rewrite Hcls.
    replace (str_attr USCensus "_endpoint_base")
      with (Ok "http://geocoding.geo.census.gov/geocoder/locations/")
      by (vm_compute; reflexivity).
    cbn [mbind result_bind].
    destruct (String.eqb (query pq) ""); cbn [negb];
      intros [= <-]; reflexivity.
  - unfold MapQuest_request, setting.
    rewrite MapQuest_location_parameters.
    destruct (dict_get "api_key" (_settings self)) as [key|];
      [|discriminate]. cbn [mbind result_bind].
    destruct (str_attr (cls self) "_endpoint"); [|discriminate].
    cbn [mbind result_bind]. intros [= <-]. exists key.
    split; [reflexivity|]. destruct (viewbox pq); reflexivity.
  - unfold MapQuest_request, setting.
    rewrite MapQuest_location_parameters.
    destruct (dict_get "api_key" (_settings self)) as [key|];
      [|discriminate]. cbn [mbind result_bind].
    destruct (str_attr (cls self) "_endpoint"); [|discriminate].
    cbn [mbind result_bind]. intros [= <-]. exists key.
    split; [reflexivity|]. destruct (viewbox pq); reflexivity.
  - unfold MapQuest_request, setting.
    rewrite MapQuest_location_parameters.
    destruct (dict_get "api_key" (_settings self)) as [key|];
      [|discriminate]. cbn [mbind result_bind].
    destruct (str_attr (cls self) "_endpoint"); [|discriminate].
    cbn [mbind result_bind]. intros [= <-]. exists key.
    split; [reflexivity|]. destruct (viewbox pq); reflexivity.
  - unfold Nominatim_request.
    destruct (str_attr (cls self) "_endpoint"); [|discriminate].
    cbn [mbind result_bind]. intros [= <-].
    destruct (viewbox pq); reflexivity.
Qed.

(** C1, as the adapters have it: the request an adapter builds carries
    the address parameters of its side of the test, with the values of the
    query: for USCensus, MapQuest and Nominatim they and the fixed
    parameters are the whole request, for Bing only options and the key
    stand beside them; and two queries on the same side of the test that
    agree on the attributes listed for that side give the same request. *)
Theorem request_built_from_sources (self : service) (pq1 pq2 : PlaceQuery) :
  (∀ req, request self pq1 = Ok req → carries self pq1 req) ∧
  (free_form (cls self) pq1 = free_form (cls self) pq2 →
   agree_on (sources (cls self) (free_form (cls self) pq1)) pq1 pq2 →
   request self pq1 = request self pq2).
Proof.
  split.
  - intros req. apply request_carries.
  - unfold request. destruct (cls self) eqn:Hcls.
    + apply Bing_request_sources.
    + apply USCensus_request_sources.
    + apply (MapQuest_request_sources MapQuest); auto.
    + apply (MapQuest_request_sources MapQuestSSL); auto.
    + apply (MapQuest_request_sources MapQuestOpen); auto.
    + intros _. apply Nominatim_request_sources.
Qed.

(** ** The street address USCensus rebuilds *)

Lemma leading_digits_begins (s : string) :
  begins_with_digit s = true ↔ leading_digits s ≠ "".
Proof.
  destruct s as [|c s]; simpl; [split; [discriminate|congruence]|].
  destruct (isdigit c); split; congruence.
Qed.

Lemma match_digits_None (s : string) :
  begins_with_digit s = false → match_digits s = None.
Proof.
  unfold match_digits. destruct s as [|c s]; simpl; [reflexivity|].
  intros ->. reflexivity.
Qed.

Lemma match_digits_Some (s : string) :
  begins_with_digit s = true → match_digits s = Some (leading_digits s).
Proof.
  unfold match_digits. intros Hb. apply leading_digits_begins in Hb.
  destruct (leading_digits s); [congruence|reflexivity].
Qed.

Lemma prefix_append (a b : string) : String.prefix a (a +:+ b) = true.
Proof.
  induction a as [|c a IH]; simpl.
  - destruct b; reflexivity.
  - destruct (ascii_dec c c); [exact IH|congruence].
Qed.

Lemma append_empty_r (a : string) : a +:+ "" = a.
Proof.
  induction a as [|c a IH]; [reflexivity|].
  change (String c (a +:+ "") = String c a). f_equal. exact IH.
Qed.

Lemma join_head (sep a : string) (l : list string) :
  ∃ rest, join sep (a :: l) = a +:+ rest.
Proof.
  destruct l as [|b l]; simpl.
  - exists "". symmetry. apply append_empty_r.
  - eauto.
Qed.

Lemma join_vals_Ok (sep s : string) (l : list pyval) :
  join_vals sep l = Ok s ↔ ∃ ss, l = map PStr ss ∧ s = join sep ss.
Proof.
  unfold join_vals. split.
  - intros Hj. apply bind_Ok in Hj as (ss & Hss & [= <-]).
    exists ss. split; [|reflexivity].
    apply mapM_Ok in Hss. induction Hss as [|v t l ss Hv _ IH]; simpl.
    + reflexivity.
    + destruct v; try discriminate. injection Hv as ->. congruence.
  - intros (ss & -> & ->).
    replace (mapM _ (map PStr ss)) with (Ok (A:=list string) ss);
      [reflexivity|].
    symmetry. apply mapM_Ok. induction ss; simpl; constructor; auto.
Qed.

Lemma components_read (match_ : pyval) (fl : list string)
    (fields : list pyval) :
  mapM (λ field, comps ← getitem match_ "addressComponents";
                 get_or_empty comps field) fl = Ok fields →
  fl ≠ [] →
  ∃ d, getitem match_ "addressComponents" = Ok (PDict d) ∧
       fields = map (λ field, default (PStr "") (dict_get field d)) fl.
Proof.
  intros Hm Hne. apply mapM_Ok in Hm.
  destruct Hm as [|f0 v0 fl fields H0 Hm]; [congruence|].
  apply bind_Ok in H0 as (comps & Hcomps & H0).
  apply get_or_empty_Ok in H0 as (d & -> & ->).
  exists d. split; [exact Hcomps|]. simpl. f_equal. clear Hne.
  induction Hm as [|f v fl fields Hf _ IH]; simpl; [reflexivity|].
  rewrite Hcomps in Hf. simpl in Hf. injection Hf as <-. f_equal. apply IH.
Qed.

Lemma components_total (match_ : pyval) (d : pydict) (fl : list string) :
  getitem match_ "addressComponents" = Ok (PDict d) →
  mapM (λ field, comps ← getitem match_ "addressComponents";
                 get_or_empty comps field) fl
  = Ok (map (λ field, default (PStr "") (dict_get field d)) fl).
Proof.
  intros Hd. apply mapM_Ok. induction fl; simpl; constructor; auto.
  rewrite Hd. reflexivity.
Qed.

(** The last [return] of [_street_addr_from_response] is never taken. *)
Lemma return_else_unreachable (match_ v : pyval) :
  USCensus_street_addr_from_response_at match_ ≠ Ok (return_else, v).
Proof.
  unfold USCensus_street_addr_from_response_at. intros Hs. steps Hs.
  destruct v1 as [group0|]; [|discriminate].
  steps Hs. cbn [app existsb truthy] in Hs.
  destruct v0; try discriminate. injection Hv0 as Hm.
  unfold match_digits in Hm.
  destruct (leading_digits s) eqn:Hl; [discriminate|]. injection Hm as <-.
  cbn [String.eqb negb orb] in Hs. steps Hs. discriminate.
Qed.

Lemma street_addr_give_up (match_ : pyval) (s : string) :
  getitem match_ "matchedAddress" = Ok (PStr s) →
  begins_with_digit s = false →
  USCensus_street_addr_from_response match_ = Ok (PStr "").
Proof.
  intros Hs Hb.
  unfold USCensus_street_addr_from_response,
    USCensus_street_addr_from_response_at.
  rewrite Hs. cbn [mbind result_bind]. rewrite (match_digits_None _ Hb).
  reflexivity.
Qed.

Lemma street_addr_joined (match_ v : pyval) (s : string) :
  getitem match_ "matchedAddress" = Ok (PStr s) →
  begins_with_digit s = true →
  USCensus_street_addr_from_response match_ = Ok v →
  ∃ d present,
    getitem match_ "addressComponents" = Ok (PDict d) ∧
    map PStr present
    = filter (λ x, Is_true (truthy x)) (ordered_components d) ∧
    v = PStr (join " " (leading_digits s :: present)).
Proof.
  intros Hs Hb.
  unfold USCensus_street_addr_from_response,
    USCensus_street_addr_from_response_at.
  rewrite Hs. cbn [mbind result_bind]. rewrite (match_digits_Some _ Hb).
  intros Hv. apply fmap_Ok in Hv as ([site w] & Hv & ->).
  apply bind_Ok in Hv as (fields & Hf & Hv).
  apply components_read in Hf as (d & Hd & ->); [|discriminate].
  apply leading_digits_begins in Hb.
  assert (Ht : truthy (PStr (leading_digits s)) = true).
  { cbn [truthy]. destruct (leading_digits s); [congruence|reflexivity]. }
  cbn [app existsb] in Hv. rewrite Ht in Hv. cbn [orb] in Hv.
  rewrite filter_cons_True in Hv by (rewrite Ht; exact I).
  apply bind_Ok in Hv as (j & Hj & [= <- <-]).
  apply join_vals_Ok in Hj as (ss & Hss & ->).
  destruct ss as [|a present]; [discriminate|].
  injection Hss as -> Hss. exists d, present. auto.
Qed.

Lemma street_addr_returns (match_ : pyval) (s : string) (d : pydict) :
  getitem match_ "matchedAddress" = Ok (PStr s) →
  getitem match_ "addressComponents" = Ok (PDict d) →
  (∀ field x, field ∈ ordered_fields → dict_get field d = Some x →
              ∃ t, x = PStr t) →
  returned (USCensus_street_addr_from_response match_).
Proof.
  intros Hs Hd Hstr.
  destruct (begins_with_digit s) eqn:Hb.
  2: { eexists. eapply street_addr_give_up; eassumption. }
  unfold USCensus_street_addr_from_response,
    USCensus_street_addr_from_response_at.
  rewrite Hs. cbn [mbind result_bind]. rewrite (match_digits_Some _ Hb).
  rewrite (components_total _ _ _ Hd). cbn [mbind result_bind].
  apply leading_digits_begins in Hb.
  assert (Ht : truthy (PStr (leading_digits s)) = true).
  { cbn [truthy]. destruct (leading_digits s); [congruence|reflexivity]. }
  cbn [app existsb]. rewrite Ht. cbn [orb].
  rewrite filter_cons_True by (rewrite Ht; exact I).
  assert (Hall : ∃ ss, filter (λ x, Is_true (truthy x))
                         (map (λ field, default (PStr "") (dict_get field d))
                            ordered_fields) = map PStr ss).
  { revert Hstr. generalize ordered_fields as fl.
    induction fl as [|f fl IH]; intros Hstr.
    - exists []. reflexivity.
    - destruct IH as [ss Hss].
      { intros field x Hin. apply Hstr. right. exact Hin. }
      cbn [map]. rewrite filter_cons. rewrite Hss.
      destruct (decide _); [|eauto].
      destruct (dict_get f d) as [x|] eqn:Hx.
      + destruct (Hstr f x) as [t ->]; [left|exact Hx|].
        exists (t :: ss). reflexivity.
      + exists ("" :: ss). reflexivity. }
  destruct Hall as [ss Hss]. rewrite Hss.
  replace (join_vals " " (PStr (leading_digits s) :: map PStr ss))
    with (Ok (A:=string) (join " " (leading_digits s :: ss))).
  - eexists. reflexivity.
  - symmetry. apply join_vals_Ok. exists (leading_digits s :: ss). auto.
Qed.

(** C9: for a match whose [matchedAddress] is the string [s],
    [_street_addr_from_response] returns '' exactly when [s] does not
    begin with a decimal digit; when it does, the string returned is not
    empty, starts with the leading digits of [s] and is these digits and
    the ordered address components that are present, joined by single
    spaces; the function returns whenever the components that are present
    are strings; the [else] after the [any(result)] test is never the
    way out. *)
Theorem street_addr_from_response (match_ : pyval) (s : string) :
  getitem match_ "matchedAddress" = Ok (PStr s) →
  (begins_with_digit s = false →
   USCensus_street_addr_from_response match_ = Ok (PStr "")) ∧
  (∀ v, USCensus_street_addr_from_response match_ = Ok v →
        (v = PStr "" ↔ begins_with_digit s = false)) ∧
  (begins_with_digit s = true →
   ∀ v, USCensus_street_addr_from_response match_ = Ok v →
        ∃ d present t,
          getitem match_ "addressComponents" = Ok (PDict d) ∧
          map PStr present
          = filter (λ x, Is_true (truthy x)) (ordered_components d) ∧
          t = join " " (leading_digits s :: present) ∧
          v = PStr t ∧ t ≠ "" ∧
          String.prefix (leading_digits s) t = true) ∧
  (∀ d, getitem match_ "addressComponents" = Ok (PDict d) →
        (∀ field x, field ∈ ordered_fields → dict_get field d = Some x →
                    ∃ t, x = PStr t) →
        returned (USCensus_street_addr_from_response match_)) ∧
  (∀ v, USCensus_street_addr_from_response_at match_
        ≠ Ok (return_else, v)).
Proof.
  intros Hs.
  assert (Hjoined : begins_with_digit s = true →
    ∀ v, USCensus_street_addr_from_response match_ = Ok v →
         ∃ d present t,
           getitem match_ "addressComponents" = Ok (PDict d) ∧
           map PStr present
           = filter (λ x, Is_true (truthy x)) (ordered_components d) ∧
           t = join " " (leading_digits s :: present) ∧
           v = PStr t ∧ t ≠ "" ∧
           String.prefix (leading_digits s) t = true).
  { intros Hb v Hv.
    destruct (street_addr_joined _ _ _ Hs Hb Hv) as (d & present & Hd & Hp & ->).
    exists d, present. eexists. repeat split; try eassumption.
    - destruct (join_head " " (leading_digits s) present) as [rest ->].
      apply leading_digits_begins in Hb.
      destruct (leading_digits s); [congruence|discriminate].
    - destruct (join_head " " (leading_digits s) present) as [rest ->].
      apply prefix_append. }
  split; [|split; [|split; [|split]]].
  - apply street_addr_give_up, Hs.
  - intros v Hv. split.
    + intros ->. destruct (begins_with_digit s) eqn:Hb; [|reflexivity].
      destruct (Hjoined eq_refl _ Hv)
        as (d & p & t & _ & _ & _ & [= <-] & Hne & _).
      congruence.
    + intros Hb. rewrite (street_addr_give_up _ _ Hs Hb) in Hv. congruence.
  - exact Hjoined.
  - intros d. eapply street_addr_returns, Hs.
  - apply return_else_unreachable.
Qed.

(** ** Default chains *)

(** C3: a [Bing] built with [postprocessors=None] hands the empty chain
    to its base class: the class body binds [DEFAULT_POSTPROCESSORS] first
    to the list of AttrMigrator, UseHighScoreIfAtLeast, AttrFilter,
    AttrRename, AttrSorter, ScoreSorter and GroupBy stages and then to
    [[]], and the second binding is the one the class keeps. *)
Theorem Bing_default_chain_empty (preprocessors : option (list preprocessor))
    (settings : option (list (string * string))) :
  (∃ args, Bing_init preprocessors None settings = Ok args ∧
           init_postprocessors args = []) ∧
  bindings "DEFAULT_POSTPROCESSORS" Bing_body
  = [CPost Bing_postprocessors_first; CPost []] ∧
  remove_dups (map stage_name Bing_postprocessors_first)
  = ["AttrMigrator"; "UseHighScoreIfAtLeast"; "AttrFilter"; "AttrRename";
     "AttrSorter"; "ScoreSorter"; "GroupBy"] ∧
  default_postprocessors Bing = Ok [].
Proof.
  assert (Hd : default_postprocessors Bing = Ok [])
    by (vm_compute; reflexivity).
  split; [|split; [|split]].
  - unfold Bing_init. rewrite Hd.
    destruct preprocessors as [l|].
    + eexists. split; reflexivity.
    + replace (default_preprocessors Bing) with (Ok [ReplaceRangeWithNumber])
        by (vm_compute; reflexivity).
      eexists. split; reflexivity.
  - vm_compute. reflexivity.
  - vm_compute. reflexivity.
  - exact Hd.
Qed.

(** C6, as the classes have it: the default chain every class keeps
    follows the convention, and so does the list [Bing] binds first from
    its AttrFilter on; before that AttrFilter it has an AttrMigrator and
    a UseHighScoreIfAtLeast. *)
Theorem default_chains_ordered :
  (∀ c l, default_postprocessors c = Ok l → convention_ordered l = true) ∧
  convention_ordered (drop 2 Bing_postprocessors_first) = true ∧
  map stage_name (take 3 Bing_postprocessors_first)
  = ["AttrMigrator"; "UseHighScoreIfAtLeast"; "AttrFilter"].
Proof.
  split; [|split].
  - intros c l. destruct c; vm_compute; intros [= <-]; reflexivity.
  - vm_compute. reflexivity.
  - vm_compute. reflexivity.
Qed.

(** * Further properties of the adapters *)

(** ** Failures *)

Lemma mapM_first_error {A B} (f : A → result B) (good rest : list A) (x : A)
    (e : exn) :
  Forall (λ a, returned (f a)) good → f x = Err e →
  mapM f (good ++ x :: rest) = Err e.
Proof.
  intros Hgood Hx. induction Hgood as [|a good [b Hb] _ IH]; simpl.
  - rewrite Hx. reflexivity.
  - rewrite Hb. simpl. rewrite IH. reflexivity.
Qed.

(** X1: the exception the transport raises is the exception [_geocode]
    raises, for every adapter. *)
Theorem transport_error_propagates (self : service) (pq : PlaceQuery)
    (req : string * pydict) (e : exn) :
  request self pq = Ok req →
  _get_json_obj (fst req) (snd req) = Err e →
  _geocode self pq = Err e.
Proof.
  intros Hreq He. rewrite _geocode_unfold, Hreq. simpl. rewrite He.
  reflexivity.
Qed.

(** X2: the loop stops at the first row that fails and [_geocode] raises
    the exception of that row, whatever the rows after it hold. *)
Theorem first_failing_row_decides (self : service) (pq : PlaceQuery)
    (req : string * pydict) (response_obj : pyval)
    (good rest : list pyval) (r : pyval) (e : exn) :
  request self pq = Ok req →
  _get_json_obj (fst req) (snd req) = Ok response_obj →
  rows_of self response_obj = Ok (good ++ r :: rest) →
  Forall (λ r', returned (candidate_of self r')) good →
  candidate_of self r = Err e →
  _geocode self pq = Err e.
Proof.
  intros Hreq Hresp Hrows Hgood Hr.
  rewrite _geocode_unfold, Hreq. simpl. rewrite Hresp. simpl.
  rewrite Hrows. simpl. apply mapM_first_error; assumption.
Qed.

(** X3: the list returned has one candidate for each row of the
    response, in the order of the rows: the candidate at a position is the
    one built from the row at that position. *)
Theorem one_candidate_per_row (self : service) (pq : PlaceQuery)
    (cands : list (gmap string pyval)) :
  _geocode self pq = Ok cands →
  ∃ req response_obj rows,
    request self pq = Ok req ∧
    _get_json_obj (fst req) (snd req) = Ok response_obj ∧
    rows_of self response_obj = Ok rows ∧
    length cands = length rows ∧
    ∀ (i : nat) (c : gmap string pyval),
      cands !! i = Some c →
      ∃ r, rows !! i = Some r ∧ candidate_of self r = Ok c.
Proof.
  intros Hg. apply _geocode_Ok in Hg as (req & resp & rows & ? & ? & ? & Hc).
  exists req, resp, rows. repeat (split; [assumption|]). split.
  - symmetry. eapply Forall2_length, Hc.
  - intros i c Hi.
    destruct (Forall2_lookup_r _ _ _ i c Hc Hi) as (r & Hr & Hrc). eauto.
Qed.

(** X4: Bing and MapQuest read only the first item of the list their
    response wraps the rows in: the rows are those of that item whatever
    follows it, and a response whose list is empty makes [_geocode] raise
    [IndexError] instead of returning the empty list. *)
Theorem first_item_only (self : service) (key : string) :
  outer_key (cls self) = Some key →
  (∀ response_obj item others,
     getitem response_obj key = Ok (PList (item :: others)) →
     rows_of self response_obj
     = getitem item (inner_key (cls self)) ≫= iterate) ∧
  (∀ pq req response_obj,
     request self pq = Ok req →
     _get_json_obj (fst req) (snd req) = Ok response_obj →
     getitem response_obj key = Ok (PList []) →
     _geocode self pq = Err IndexError).
Proof.
  intros Hkey. split.
  - intros resp item others Hresp. unfold rows_of, Bing_rows, MapQuest_rows.
    destruct (cls self); simpl in Hkey; try discriminate;
      injection Hkey as <-; rewrite Hresp; reflexivity.
  - intros pq req resp Hreq Hresp Hempty.
    rewrite _geocode_unfold, Hreq. simpl. rewrite Hresp. simpl.
    unfold rows_of, Bing_rows, MapQuest_rows.
    destruct (cls self); simpl in Hkey; try discriminate;
      injection Hkey as <-; rewrite Hempty; reflexivity.
Qed.

(** X5: Bing and the MapQuest classes cannot build a request without an
    API key: when the settings have no [api_key] (and, for Bing, the
    user's latitude and longitude, if both are there, can be formatted),
    [_geocode] raises [KeyError] for it, whatever the transport would
    answer. *)
Theorem api_key_required (self : service) (pq : PlaceQuery) :
  reads_api_key (cls self) = true →
  dict_get "api_key" (_settings self) = None →
  (cls self = Bing →
   ∀ lat lon, user_lat pq = Some lat → user_lon pq = Some lon →
              returned (percent_f lat) ∧ returned (percent_f lon)) →
  _geocode self pq = Err (KeyError "api_key").
Proof.
  intros Hreads Hkey Hul. rewrite _geocode_unfold.
  assert (Hs : setting self "api_key" = Err (KeyError "api_key")).
  { unfold setting. rewrite Hkey. reflexivity. }
  replace (request self pq) with (Err (A:=string * pydict)
                                    (KeyError "api_key")); [reflexivity|].
  unfold request. destruct (cls self) eqn:Hcls; try discriminate Hreads.
  - unfold Bing_request.
    destruct (user_lat pq) as [lat|] eqn:Hlat,
             (user_lon pq) as [lon|] eqn:Hlon;
      cbn [mbind result_bind]; rewrite ?Hs; try reflexivity.
    destruct (Hul eq_refl lat lon eq_refl eq_refl) as [[a ->] [b ->]].
    cbn [mbind result_bind]. rewrite ?Hs. reflexivity.
  - unfold MapQuest_request. rewrite Hs. reflexivity.
  - unfold MapQuest_request. rewrite Hs. reflexivity.
  - unfold MapQuest_request. rewrite Hs. reflexivity.
Qed.

(** X6: USCensus and Nominatim never read the settings: their request
    is always built, and it is the same whatever the settings are. *)
Theorem no_api_key_needed (self : service) (pq : PlaceQuery) :
  reads_api_key (cls self) = false →
  returned (request self pq) ∧
  ∀ settings, request {| cls := cls self; _settings := settings |} pq
              = request self pq.
Proof.
  intros Hreads. unfold request. cbn [cls].
  destruct (cls self) eqn:Hcls; try discriminate Hreads.
  - unfold USCensus_request. cbn [cls]. rewrite Hcls.
    replace (str_attr USCensus "_endpoint_base")
      with (Ok "http://geocoding.geo.census.gov/geocoder/locations/")
      by (vm_compute; reflexivity).
    cbn [mbind result_bind]. split; [|reflexivity].
    destruct (negb _); eexists; reflexivity.
  - unfold Nominatim_request. cbn [cls]. rewrite Hcls.
    replace (str_attr Nominatim "_endpoint")
      with (Ok "http://open.mapquestapi.com/nominatim/v1/search")
      by (vm_compute; reflexivity).
    cbn [mbind result_bind]. split; [|reflexivity].
    eexists; reflexivity.
Qed.

(** ** What a candidate holds *)

Lemma candidate_assigns_only (self : service) (r : pyval)
    (c : gmap string pyval) :
  candidate_of self r = Ok c → assigns_only (cls self) c.
Proof.
  intros Hc. unfold assigns_only.
  open_candidate self Hc; unfold assigned; (split; intros n Hn);
    try (repeat (apply elem_of_cons in Hn as [-> | Hn]);
         [read_attr; eauto ..|apply elem_of_nil in Hn; contradiction]);
    repeat (apply not_elem_of_cons in Hn as [? Hn]);
    unfold setattr; rewrite !lookup_insert_ne by congruence; reflexivity.
Qed.

(** X7: a candidate an adapter returns has every attribute of the
    adapter's list ([score] is in none of the lists), and every other
    attribute exactly as the constructor left it. *)
Theorem attributes_assigned (self : service) (pq : PlaceQuery)
    (cands : list (gmap string pyval)) :
  _geocode self pq = Ok cands →
  Forall (assigns_only (cls self)) cands ∧
  Forall (λ c : gmap string pyval, c !! "score" = Candidate !! "score") cands.
Proof.
  intros Hg. apply _geocode_Ok in Hg as (req & resp & rows & _ & _ & _ & Hc).
  assert (Ha : Forall (assigns_only (cls self)) cands).
  { induction Hc as [|r c rows cands Hrc _ IH]; constructor; [|exact IH].
    eapply candidate_assigns_only, Hrc. }
  split; [exact Ha|].
  eapply Forall_impl; [exact Ha|].
  intros c [_ Hframe]. apply Hframe.
  destruct (cls self); unfold assigned;
    repeat (apply not_elem_of_cons; split; [discriminate|]);
    apply not_elem_of_nil.
Qed.

Lemma candidate_copies (self : service) (r : pyval)
    (c : gmap string pyval) :
  candidate_of self r = Ok c → copies (cls self) r c.
Proof.
  intros Hc. unfold copies.
  open_candidate self Hc; unfold copied; repeat constructor;
    cbn [fst snd follow]; replay_reads;
    (eexists; split; [reflexivity|read_attr; reflexivity]).
Qed.

(** X8: each adapter copies its fields unchanged: the candidate built
    from a row has, under every attribute of the adapter's table, the
    value the row has at the place the table gives (for Bing, [x] is the
    second coordinate and [y] the first). *)
Theorem fields_copied (self : service) (pq : PlaceQuery)
    (cands : list (gmap string pyval)) :
  _geocode self pq = Ok cands →
  ∃ req response_obj rows,
    request self pq = Ok req ∧
    _get_json_obj (fst req) (snd req) = Ok response_obj ∧
    rows_of self response_obj = Ok rows ∧
    Forall2 (copies (cls self)) rows cands.
Proof.
  intros Hg. apply _geocode_Ok in Hg as (req & resp & rows & ? & ? & ? & Hc).
  exists req, resp, rows. repeat (split; [assumption|]).
  eapply Forall2_impl; [exact Hc|].
  intros r c. apply candidate_copies.
Qed.

(** ** Dicts *)

Lemma dict_get_set_eq {V} (k : string) (v : V) (d : list (string * V)) :
  dict_get k (dict_set k v d) = Some v.
Proof.
  induction d as [|[k' v'] d IH]; simpl.
  - rewrite String.eqb_refl. reflexivity.
  - destruct (String.eqb k k') eqn:E; simpl.
    + rewrite String.eqb_refl. reflexivity.
    + rewrite E. exact IH.
Qed.

Lemma dict_get_set_ne {V} (k k' : string) (v : V) (d : list (string * V)) :
  k ≠ k' → dict_get k' (dict_set k v d) = dict_get k' d.
Proof.
  intros Hne. induction d as [|[k0 v0] d IH]; simpl.
  - apply String.eqb_neq in Hne. rewrite String.eqb_sym, Hne. reflexivity.
  - destruct (String.eqb k k0) eqn:E; simpl.
    + apply String.eqb_eq in E. subst k0.
      apply String.eqb_neq in Hne. rewrite String.eqb_sym, Hne. reflexivity.
    + rewrite IH. reflexivity.
Qed.

Lemma dict_get_absent {V} (k : string) (d : list (string * V)) :
  k ∉ map fst d → dict_get k d = None.
Proof.
  induction d as [|[k' v'] d IH]; simpl; [reflexivity|].
  intros Hk. apply not_elem_of_cons in Hk as [Hne Hk].
  apply String.eqb_neq in Hne. rewrite Hne. apply IH, Hk.
Qed.

Lemma dict_set_Forall {V} (P : string * V → Prop) (k : string) (v : V)
    (d : list (string * V)) :
  P (k, v) → Forall P d → Forall P (dict_set k v d).
Proof.
  intros Hkv Hd. induction Hd as [|[k' v'] d Hx Hd IH]; simpl.
  - repeat constructor. exact Hkv.
  - destruct (String.eqb k k'); constructor; assumption.
Qed.

(** ** The location MapQuest sends *)

Lemma get_appended_location_cons (location : list (string * string))
    (kw : string * string) (kwargs : list (string * string)) :
  get_appended_location location (kw :: kwargs)
  = get_appended_location
      (if negb (String.eqb (snd kw) "")
       then dict_set (fst kw) (snd kw) location
       else location) kwargs.
Proof. reflexivity. Qed.

Lemma get_appended_location_get (kwargs location : list (string * string))
    (k : string) :
  NoDup (map fst kwargs) →
  dict_get k (get_appended_location location kwargs)
  = match dict_get k kwargs ≫= nonempty with
    | Some v => Some v
    | None => dict_get k location
    end.
Proof.
  revert location. induction kwargs as [|[k0 v0] kwargs IH];
    intros location Hnd; [reflexivity|].
  cbn [map fst] in Hnd. apply NoDup_cons in Hnd as [Hk0 Hnd].
  rewrite get_appended_location_cons, (IH _ Hnd). cbn [fst snd dict_get].
  destruct (String.eqb k k0) eqn:E.
  - apply String.eqb_eq in E. subst k0.
    rewrite (dict_get_absent _ _ Hk0). cbn [mbind option_bind].
    unfold nonempty. destruct (String.eqb v0 ""); cbn [negb];
      [reflexivity|apply dict_get_set_eq].
  - apply String.eqb_neq in E.
    destruct (dict_get k kwargs ≫= nonempty); [reflexivity|].
    destruct (negb _); [|reflexivity].
    apply dict_get_set_ne. congruence.
Qed.

Lemma get_appended_location_values (kwargs location : list (string * string)) :
  Forall (λ kv, snd kv ≠ "") location →
  Forall (λ kv, snd kv ≠ "") (get_appended_location location kwargs).
Proof.
  revert location. induction kwargs as [|[k0 v0] kwargs IH];
    intros location Hloc; [exact Hloc|].
  rewrite get_appended_location_cons. apply IH. cbn [fst snd].
  destruct (String.eqb v0 "") eqn:E; cbn [negb]; [exact Hloc|].
  apply dict_set_Forall; [|exact Hloc]. cbn [snd].
  apply String.eqb_neq, E.
Qed.

(** X9: [get_appended_location], called with keyword arguments (their
    names are distinct), gives a dict in which a name has the value of
    its argument when that value is not the empty string, and otherwise
    the value it had before; it never stores an empty string. *)
Theorem get_appended_location_adds_nonempty
    (location kwargs : list (string * string)) :
  NoDup (map fst kwargs) →
  (∀ k, dict_get k (get_appended_location location kwargs)
        = match dict_get k kwargs ≫= nonempty with
          | Some v => Some v
          | None => dict_get k location
          end) ∧
  (Forall (λ kv, snd kv ≠ "") location →
   Forall (λ kv, snd kv ≠ "") (get_appended_location location kwargs)).
Proof.
  intros Hnd. split.
  - intros k. apply get_appended_location_get, Hnd.
  - apply get_appended_location_values.
Qed.

Lemma location_kwargs_NoDup (pq : PlaceQuery) :
  NoDup (map fst (location_kwargs pq)).
Proof.
  cbn [location_kwargs map fst].
  repeat (apply NoDup_cons; split;
          [repeat (apply not_elem_of_cons; split; [discriminate|]);
           apply not_elem_of_nil|]).
  apply NoDup_nil. exact I.
Qed.

Lemma MapQuest_location_get (pq : PlaceQuery) (k : string) :
  dict_get k (MapQuest_location pq)
  = match dict_get k (location_kwargs pq) ≫= nonempty with
    | Some v => Some v
    | None =>
        if String.eqb k "street"
        then match nonempty (query pq) with
             | Some q => Some q
             | None => nonempty (address pq)
             end
        else None
    end.
Proof.
  destruct (String.eqb (query pq) "") eqn:Eq.
  - rewrite (MapQuest_location_structured _ Eq).
    change [("city", city pq); ("county", subregion pq); ("state", state pq);
            ("postalCode", postal pq); ("country", country pq)]
      with (location_kwargs pq).
    rewrite (get_appended_location_get _ _ _ (location_kwargs_NoDup pq)).
    destruct (dict_get k (location_kwargs pq) ≫= nonempty); [reflexivity|].
    unfold nonempty at 1. rewrite Eq.
    unfold get_appended_location, nonempty. cbn [fold_left snd].
    destruct (String.eqb (address pq) ""); cbn [negb dict_update fold_left
      fst snd dict_set dict_get];
      destruct (String.eqb k "street"); reflexivity.
  - rewrite (MapQuest_location_free_form _ Eq).
    change [("city", city pq); ("county", subregion pq); ("state", state pq);
            ("postalCode", postal pq); ("country", country pq)]
      with (location_kwargs pq).
    rewrite (get_appended_location_get _ _ _ (location_kwargs_NoDup pq)).
    destruct (dict_get k (location_kwargs pq) ≫= nonempty); [reflexivity|].
    unfold nonempty. rewrite Eq. cbn [dict_get].
    destruct (String.eqb k "street"); reflexivity.
Qed.

(** X10: in the location MapQuest serialises, [street] is the
    free-form string when it is not empty, else the address when that is
    not empty, else absent; [city], [county], [state], [postalCode] and
    [country] are the city, subregion, state, postal and country of the
    query when not empty, else absent; there is no other key, and no
    value is the empty string. *)
Theorem MapQuest_location_fields (pq : PlaceQuery) :
  let location := MapQuest_location pq in
  dict_get "street" location
  = match nonempty (query pq) with
    | Some q => Some q
    | None => nonempty (address pq)
    end ∧
  dict_get "city" location = nonempty (city pq) ∧
  dict_get "county" location = nonempty (subregion pq) ∧
  dict_get "state" location = nonempty (state pq) ∧
  dict_get "postalCode" location = nonempty (postal pq) ∧
  dict_get "country" location = nonempty (country pq) ∧
  (∀ k, k ∉ ["street"; "city"; "county"; "state"; "postalCode"; "country"] →
        dict_get k location = None) ∧
  Forall (λ kv, snd kv ≠ "") location.
Proof.
  cbv zeta.
  repeat match goal with |- _ ∧ _ => split end;
    try (rewrite MapQuest_location_get;
         cbn [location_kwargs dict_get String.eqb Ascii.eqb Bool.eqb
              mbind option_bind];
         match goal with
         | |- context [nonempty ?s] => destruct (nonempty s); reflexivity
         end).
  - intros k Hk. rewrite MapQuest_location_get.
    repeat (apply not_elem_of_cons in Hk as [? Hk]).
    cbn [location_kwargs dict_get].
    repeat match goal with
           | Hne : k ≠ ?s |- context [String.eqb k ?s] =>
               rewrite (proj2 (String.eqb_neq k s) Hne)
           end.
    reflexivity.
  - unfold MapQuest_location.
    apply get_appended_location_values.
    destruct (get_appended_location [] [("street", query pq)]) eqn:E.
    + apply get_appended_location_values. constructor.
    + rewrite <- E. apply get_appended_location_values. constructor.
Qed.

(** ** The request Bing sends *)

(** X11: in the request Bing builds, [key] is the API key of the
    settings; [umv], [c] and [uip] are there exactly when the query has a
    viewbox, a culture and a user IP, with their values; [ul] is there
    exactly when the query has both a user latitude and a user longitude;
    [query] is there exactly when the stripped free-form string is not
    empty, and the five address parameters exactly when it is. *)
Theorem Bing_request_parameters (self : service) (pq : PlaceQuery)
    (req : string * pydict) :
  Bing_request self pq = Ok req →
  let blank := String.eqb (strip (query pq)) "" in
  let structured (v : string) := if blank then Some (PStr v) else None in
  dict_get "key" (snd req)
  = PStr <$> dict_get "api_key" (_settings self) ∧
  dict_get "umv" (snd req)
  = (λ vb, PStr (to_bing_str vb)) <$> viewbox pq ∧
  dict_get "c" (snd req) = PStr <$> culture pq ∧
  dict_get "uip" (snd req) = PStr <$> user_ip pq ∧
  (is_Some (dict_get "ul" (snd req))
   ↔ is_Some (user_lat pq) ∧ is_Some (user_lon pq)) ∧
  dict_get "query" (snd req)
  = (if blank then None else Some (PStr (query pq))) ∧
  dict_get "addressLine" (snd req) = structured (address pq) ∧
  dict_get "locality" (snd req) = structured (city pq) ∧
  dict_get "adminDistrict" (snd req) = structured (state pq) ∧
  dict_get "postalCode" (snd req) = structured (postal pq) ∧
  dict_get "countryRegion" (snd req) = structured (country pq).
Proof.
  clear Candidate _get_json_obj unquote str_other.
  unfold Bing_request, setting. cbv zeta.
  destruct (dict_get "api_key" (_settings self)) as [key|];
    [|destruct (user_lat pq) as [lat|], (user_lon pq) as [lon|];
      try discriminate;
      destruct (percent_f lat); try discriminate;
      destruct (percent_f lon); discriminate].
  destruct (String.eqb (strip (query pq)) ""),
    (viewbox pq) as [vb|], (culture pq) as [cu|], (user_ip pq) as [ip|],
    (user_lat pq) as [lat|], (user_lon pq) as [lon|];
    try (destruct (percent_f lat) as [a|]; [|discriminate]);
    try (destruct (percent_f lon) as [b|]; [|discriminate]);
    cbn [mbind result_bind];
    (destruct (str_attr (cls self) "_endpoint") as [ep|]; [|discriminate]);
    cbn [mbind result_bind]; intros [= <-];
    repeat match goal with |- _ ∧ _ => split end;
    try reflexivity;
    rewrite !is_Some_alt; cbn; tauto.
Qed.

(** ** The subclasses of MapQuest *)

Lemma MapQuest_family_endpoint (c : service_class) :
  MapQuest_family c = true → returned (str_attr c "_endpoint").
Proof.
  destruct c; try discriminate; intros _; eexists; vm_compute; reflexivity.
Qed.

(** X12: two services of the MapQuest classes with the same settings
    send the same parameters (only the endpoint is the class's own), read
    the same rows of a response, and build from a row candidates that
    differ in [geoservice] alone. *)
Theorem MapQuest_subclasses_share (self1 self2 : service) :
  MapQuest_family (cls self1) = true →
  MapQuest_family (cls self2) = true →
  _settings self1 = _settings self2 →
  (∀ pq, snd <$> request self1 pq = snd <$> request self2 pq) ∧
  (∀ response_obj, rows_of self1 response_obj = rows_of self2 response_obj) ∧
  (∀ r c, candidate_of self1 r = Ok c →
          candidate_of self2 r
          = Ok (<["geoservice" := PStr (class_name (cls self2))]> c)).
Proof.
  intros Hf1 Hf2 Hs.
  assert (Hreq : ∀ pq, request self1 pq = MapQuest_request self1 pq
                       ∧ request self2 pq = MapQuest_request self2 pq).
  { intros pq. unfold request.
    destruct (cls self1), (cls self2); try discriminate; split; reflexivity. }
  split; [|split].
  - intros pq. destruct (Hreq pq) as [-> ->]. unfold MapQuest_request, setting.
    rewrite Hs.
    destruct (MapQuest_family_endpoint _ Hf1) as [e1 ->].
    destruct (MapQuest_family_endpoint _ Hf2) as [e2 ->].
    destruct (dict_get "api_key" (_settings self2)); reflexivity.
  - intros resp. unfold rows_of.
    destruct (cls self1), (cls self2); try discriminate; reflexivity.
  - intros r c Hc.
    assert (H1 : MapQuest_candidate self1 r = Ok c).
    { unfold candidate_of in Hc.
      destruct (cls self1); try discriminate; exact Hc. }
    replace (candidate_of self2 r) with (MapQuest_candidate self2 r)
      by (unfold candidate_of; destruct (cls self2); try discriminate;
          reflexivity).
    clear Hc Hreq. unfold MapQuest_candidate in *. steps H1.
    injection H1 as <-. merge_reads.
    repeat match goal with
           | Hv : ?m = Ok _ |- context [?m] =>
               rewrite Hv; cbn [mbind result_bind]
           end.
    unfold setattr. rewrite insert_insert_eq. reflexivity.
Qed.

(** ** The matched address MapQuest builds *)

Lemma present_elements_dict (d : pydict) (ks : list string) :
  present_elements (PDict d) ks = Ok (omap (λ k, dict_get k d) ks).
Proof.
  induction ks as [|k ks IH]; [reflexivity|].
  cbn [present_elements contains mbind result_bind getitem].
  rewrite IH. cbn [omap list_omap]. destruct (dict_get k d) as [v|] eqn:E.
  - rewrite bool_decide_eq_true_2 by eauto. reflexivity.
  - rewrite bool_decide_eq_false_2 by (intros [? [=]]). reflexivity.
Qed.

Lemma MapQuest_candidate_address (self : service) (r : pyval)
    (c : gmap string pyval) :
  MapQuest_candidate self r = Ok c → MapQuest_address r c.
Proof.
  unfold MapQuest_candidate. intros Hc. steps Hc. injection Hc as <-.
  destruct r as [| | | | |l|d]; try discriminate.
  match goal with
  | Hp : present_elements _ _ = Ok _ |- _ =>
      rewrite present_elements_dict in Hp; injection Hp as <-
  end.
  match goal with
  | Hj : join_vals _ _ = Ok _ |- _ =>
      apply join_vals_Ok in Hj as (ss & Hss & ->)
  end.
  exists d, ss. split; [reflexivity|]. split; [symmetry; exact Hss|].
  read_attr. reflexivity.
Qed.

(** X13: the [match_addr] of a candidate MapQuest returns is the
    street, adminArea5, adminArea3, adminArea2 and postalCode of its row,
    those the row has, in this order, joined by a comma and a space; what
    the row lacks is left out. *)
Theorem MapQuest_match_addr (self : service) (pq : PlaceQuery)
    (cands : list (gmap string pyval)) :
  MapQuest_geocode self pq = Ok cands →
  ∃ req response_obj rows,
    MapQuest_request self pq = Ok req ∧
    _get_json_obj (fst req) (snd req) = Ok response_obj ∧
    MapQuest_rows response_obj = Ok rows ∧
    Forall2 MapQuest_address rows cands.
Proof.
  unfold MapQuest_geocode. intros Hg. steps Hg. apply mapM_Ok in Hg.
  do 3 eexists. repeat split; try eassumption.
  eapply Forall2_impl; [exact Hg|].
  intros r c. apply MapQuest_candidate_address.
Qed.

(** ** What Nominatim makes of a row *)

Lemma Nominatim_candidate_fields (self : service) (r : pyval)
    (c : gmap string pyval) :
  Nominatim_candidate self r = Ok c → Nominatim_fields r c.
Proof.
  unfold Nominatim_candidate. intros Hc. steps Hc. injection Hc as <-.
  unfold Nominatim_fields. read_attr. split; [reflexivity|].
  do 2 eexists. repeat split; eassumption.
Qed.

(** X14: every candidate Nominatim returns has the locator 'parcel',
    and as entity the class and the type of its row with a dot between
    them. *)
Theorem Nominatim_locator_entity (self : service) (pq : PlaceQuery)
    (cands : list (gmap string pyval)) :
  Nominatim_geocode self pq = Ok cands →
  ∃ req response_obj rows,
    Nominatim_request self pq = Ok req ∧
    _get_json_obj (fst req) (snd req) = Ok response_obj ∧
    iterate response_obj = Ok rows ∧
    Forall2 Nominatim_fields rows cands.
Proof.
  unfold Nominatim_geocode. intros Hg. steps Hg. apply mapM_Ok in Hg.
  do 3 eexists. repeat split; try eassumption.
  eapply Forall2_impl; [exact Hg|].
  intros r c. apply Nominatim_candidate_fields.
Qed.

(** ** Where [_street_addr_from_response] raises *)

Lemma join_vals_not_str (sep : string) (l : list pyval) (x : pyval) :
  x ∈ l → (∀ t, x ≠ PStr t) → join_vals sep l = Err TypeError.
Proof.
  intros Hin Hx. unfold join_vals.
  replace (mapM _ l) with (Err (A:=list string) TypeError); [reflexivity|].
  symmetry. induction l as [|y l IH]; [apply elem_of_nil in Hin; contradiction|].
  apply elem_of_cons in Hin as [<- | Hin].
  - destruct x; try reflexivity. destruct (Hx s eq_refl).
  - cbn [mapM]. destruct y; try reflexivity.
    cbn [mbind result_bind]. rewrite (IH Hin). reflexivity.
Qed.

(** X15: [_street_addr_from_response] raises [TypeError] when
    [matchedAddress] is not a string; when it begins with a digit, the
    function raises what the subscript [addressComponents] raises,
    [AttributeError] when the components are not a dict, and [TypeError]
    when one of the ordered components is there, truthy and not a
    string. *)
Theorem street_addr_failures (match_ : pyval) :
  (∀ v, getitem match_ "matchedAddress" = Ok v → (∀ s, v ≠ PStr s) →
        USCensus_street_addr_from_response match_ = Err TypeError) ∧
  (∀ s, getitem match_ "matchedAddress" = Ok (PStr s) →
        begins_with_digit s = true →
        (∀ e, getitem match_ "addressComponents" = Err e →
              USCensus_street_addr_from_response match_ = Err e) ∧
        (∀ v, getitem match_ "addressComponents" = Ok v →
              (∀ d, v ≠ PDict d) →
              USCensus_street_addr_from_response match_
              = Err AttributeError) ∧
        (∀ d field x,
           getitem match_ "addressComponents" = Ok (PDict d) →
           field ∈ ordered_fields → dict_get field d = Some x →
           truthy x = true → (∀ t, x ≠ PStr t) →
           USCensus_street_addr_from_response match_ = Err TypeError)).
Proof.
  unfold USCensus_street_addr_from_response,
    USCensus_street_addr_from_response_at.
  split.
  - intros v Hv Hns. rewrite Hv. cbn [mbind result_bind].
    destruct v; try reflexivity. destruct (Hns s eq_refl).
  - intros s Hs Hb. rewrite Hs. cbn [mbind result_bind].
    rewrite (match_digits_Some _ Hb). split; [|split].
    + intros e He. unfold ordered_fields. cbn [mapM mbind result_bind].
      rewrite He. reflexivity.
    + intros v Hv Hnd. unfold ordered_fields. cbn [mapM mbind result_bind].
      rewrite Hv. cbn [mbind result_bind].
      destruct v; try reflexivity. destruct (Hnd d eq_refl).
    + intros d field x Hd Hfield Hx Htruthy Hns.
      rewrite (components_total _ _ _ Hd). cbn [mbind result_bind].
      apply leading_digits_begins in Hb.
      assert (Ht : truthy (PStr (leading_digits s)) = true).
      { cbn [truthy]. destruct (leading_digits s); [congruence|reflexivity]. }
      cbn [app existsb]. rewrite Ht. cbn [orb].
      rewrite (join_vals_not_str _ _ x); [reflexivity| |exact Hns].
      apply list_elem_of_filter. split; [rewrite Htruthy; exact I|].
      right. apply list_elem_of_fmap. exists field.
      rewrite Hx. split; [reflexivity|exact Hfield].
Qed.

(** ** The constructors *)

(** X16: [Bing.__init__] and [Nominatim.__init__] never fail; each
    hands to the base class the chain it was given, the empty list too,
    and the default of its class only for [None]. *)
Theorem constructors_keep_or_default
    (preprocessors : option (list preprocessor))
    (postprocessors : option (list postprocessor))
    (settings : option (list (string * string))) :
  Bing_init preprocessors postprocessors settings
  = Ok {| init_preprocessors := default [ReplaceRangeWithNumber] preprocessors;
          init_postprocessors := default [] postprocessors;
          init_settings := settings |} ∧
  Nominatim_init preprocessors postprocessors settings
  = Ok {| init_preprocessors := default [ReplaceRangeWithNumber] preprocessors;
          init_postprocessors :=
            default [AttrFilter DEFAULT_ACCEPTED_ENTITIES "entity" false;
                     AttrExclude DEFAULT_REJECTED_ENTITIES "entity"]
              postprocessors;
          init_settings := settings |}.
Proof.
  unfold Bing_init, Nominatim_init.
  replace (default_preprocessors Bing) with (Ok [ReplaceRangeWithNumber])
    by (vm_compute; reflexivity).
  replace (default_preprocessors Nominatim) with (Ok [ReplaceRangeWithNumber])
    by (vm_compute; reflexivity).
  replace (default_postprocessors Bing) with (Ok (@nil postprocessor))
    by (vm_compute; reflexivity).
  replace (default_postprocessors Nominatim)
    with (Ok [AttrFilter DEFAULT_ACCEPTED_ENTITIES "entity" false;
              AttrExclude DEFAULT_REJECTED_ENTITIES "entity"])
    by (vm_compute; reflexivity).
  destruct preprocessors, postprocessors; split; reflexivity.
Qed.

End Services.

(** * Candidates built by the constructor of the spec *)

(** C7: every candidate an adapter returns has [wkid] 4326: Bing and
    MapQuest assign the constant, Nominatim its class attribute [_wkid],
    and USCensus, which assigns nothing, keeps what the constructor gave. *)
Theorem wkid_always_4326 `{PyFloat}
    (_get_json_obj : string → list (string * pyval) → result pyval)
    (unquote : string → string) (str_other : pyval → string)
    (self : service) (pq : PlaceQuery)
    (cands : list (gmap string pyval)) :
  _geocode Candidate_spec _get_json_obj unquote str_other self pq = Ok cands →
  Forall (λ c, c !! "wkid" = Some (PInt 4326)) cands.
Proof.
  intros Hg. apply _geocode_Ok in Hg as (req & resp & rows & _ & _ & _ & Hc).
  induction Hc as [|r c rows cands Hrc _ IH]; constructor; [|exact IH].
  apply candidate_wkid in Hrc. rewrite Hrc.
  destruct (cls self); reflexivity.
Qed.

(** * Sample runs *)

#[global] Existing Instance text_float.

(** A float of the samples, by its text. *)
#[local] Abbreviation fl s := (@PFloat text_float s) (only parsing).

(** [_geocode] of the sample service of class [c] on the query [pq], with
    the constructor of the spec and a transport that answers [resp]. *)
#[local] Abbreviation run c resp pq :=
  (_geocode Candidate_spec (answering resp) no_unquote no_str
     (service_of c) pq) (only parsing).

#[local] Abbreviation Bing_sample_response :=
  (Bing_response [Bing_row (fl "47.64") (fl "-122.13")]) (only parsing).

#[local] Abbreviation Census_sample_row :=
  (Census_row (fl "-77.03535") (fl "38.898754")) (only parsing).

#[local] Abbreviation Census_sample_response :=
  (Census_response [Census_sample_row]) (only parsing).

#[local] Abbreviation Bing_sample :=
  (run Bing Bing_sample_response redmond) (only parsing).

#[local] Abbreviation Census_sample :=
  (run USCensus Census_sample_response white_house) (only parsing).

#[local] Abbreviation MapQuest_sample_row :=
  (MapQuest_bare_row (fl "39.78") (fl "-100.44")) (only parsing).

#[local] Abbreviation Nominatim_sample :=
  (run Nominatim (PList [Nominatim_row]) wolf_building) (only parsing).

Example Bing_sample_run :
  observe ["entity"; "locator"; "confidence"; "x"; "y"; "wkid"; "geoservice"]
    Bing_sample
  = Ok [[Some (PStr "Address"); Some (PStr "Parcel"); Some (PStr "High");
         Some (fl "-122.13"); Some (fl "47.64"); Some (PInt 4326);
         Some (PStr "Bing")]].
Proof. reflexivity. Qed.

Example Census_sample_run :
  observe ["x"; "y"; "wkid"; "geoservice"; "match_city"; "match_region";
           "match_postal"; "match_subregion"; "match_country";
           "match_streetaddr"] Census_sample
  = Ok [[Some (fl "-77.03535"); Some (fl "38.898754");
         Some (PInt 4326); Some (PStr "USCensus");
         Some (PStr "WASHINGTON"); Some (PStr "DC"); Some (PStr "");
         Some (PStr ""); Some (PStr "USA");
         Some (PStr "1600 PENNSYLVANIA AVE NW")]].
Proof. reflexivity. Qed.

Example Nominatim_sample_run :
  observe ["locator"; "entity"; "x"; "y"; "wkid"; "geoservice"]
    Nominatim_sample
  = Ok [[Some (PStr "parcel"); Some (PStr "place.house");
         Some (fl "-75.158"); Some (fl "39.958"); Some (PInt 4326);
         Some (PStr "Nominatim")]].
Proof. reflexivity. Qed.

(** ** Requests: what the adapters read *)

(** C1 fails as stated: with a free-form string that is not empty
    MapQuest still puts the city of the query into its request, so two
    queries with the same free-form string give different requests; and
    Bing, given a free-form string of one space, builds its request from
    the structured fields. *)
Lemma free_form_not_alone :
  (query (main_st "Springfield") = query (main_st "Shelbyville") ∧
   String.eqb (query (main_st "Springfield")) "" = false) ∧
  request no_unquote (service_of MapQuest) (main_st "Springfield")
  = Ok ("http://www.mapquestapi.com/geocoding/v1/address",
        [("key", PStr "secret");
         ("json", PStr (json_dumps_location
                          [("street", "1 Main St");
                           ("city", "Springfield")]))]) ∧
  request no_unquote (service_of MapQuest) (main_st "Shelbyville")
  = Ok ("http://www.mapquestapi.com/geocoding/v1/address",
        [("key", PStr "secret");
         ("json", PStr (json_dumps_location
                          [("street", "1 Main St");
                           ("city", "Shelbyville")]))]) ∧
  json_dumps_location [("street", "1 Main St"); ("city", "Springfield")]
  ≠ json_dumps_location [("street", "1 Main St"); ("city", "Shelbyville")] ∧
  String.eqb (query blank_free_form) "" = false ∧
  request no_unquote (service_of Bing) blank_free_form
  = Ok ("http://dev.virtualearth.net/REST/v1/Locations",
        [("addressLine", PStr "1 Main St");
         ("locality", PStr "Springfield");
         ("adminDistrict", PStr "IL");
         ("postalCode", PStr "62701");
         ("countryRegion", PStr "US");
         ("key", PStr "secret")]).
Proof.
  repeat match goal with |- _ ∧ _ => split end; try reflexivity.
  intros Heq. vm_compute in Heq. discriminate Heq.
Qed.

Lemma request_built_from_sources_witness :
  request no_unquote (service_of USCensus)
    (place_query "1600 Pennsylvania Ave NW" "" "Washington" "DC" "" "")
  = request no_unquote (service_of USCensus)
      (place_query "1600 Pennsylvania Ave NW" "10 Downing St" "London" ""
         "SW1A" "UK") ∧
  carries no_unquote (service_of USCensus)
    (place_query "" "10 Downing St" "London" "" "SW1A" "UK")
    ("http://geocoding.geo.census.gov/geocoder/locations/address",
     [("format", PStr "json"); ("benchmark", PStr "Public_AR_Current");
      ("street", PStr "10 Downing St"); ("city", PStr "London");
      ("state", PStr ""); ("zip", PStr "SW1A")]).
Proof.
  split.
  - apply (request_built_from_sources (H := text_float) no_unquote).
    + reflexivity.
    + repeat constructor.
  - apply (request_built_from_sources (H := text_float) no_unquote
             (service_of USCensus)
             (place_query "" "10 Downing St" "London" "" "SW1A" "UK")
             (place_query "" "" "" "" "" "")).
    reflexivity.
Defined.

(** ** Rows with a field missing *)

(** C2 fails as stated: a MapQuest location with no matched-address
    element at all does not make the adapter raise; the candidate it
    returns has the empty string as [match_addr]. *)
Lemma MapQuest_address_optional :
  Forall (λ k, getitem MapQuest_sample_row k = Err (KeyError k))
    match_addr_elements ∧
  observe ["match_addr"; "x"; "y"; "geoservice"]
    (run MapQuest (MapQuest_response [MapQuest_sample_row])
       (main_st "Springfield"))
  = Ok [[Some (PStr ""); Some (fl "-100.44"); Some (fl "39.78");
         Some (PStr "MapQuest")]].
Proof.
  split; [repeat constructor|reflexivity].
Qed.

Lemma missing_required_field_raises_witness :
  raises (run Bing (Bing_response [Bing_row_no_confidence]) redmond).
Proof.
  eapply (missing_required_field_raises Candidate_spec
            (answering (Bing_response [Bing_row_no_confidence]))
            no_unquote no_str (service_of Bing) redmond _ _ _
            Bing_row_no_confidence [Key "confidence"]).
  - reflexivity.
  - reflexivity.
  - reflexivity.
  - repeat constructor.
  - repeat constructor.
  - exists (KeyError "confidence"). reflexivity.
Defined.

(** ** Attributes *)

Lemma geoservice_always_set_witness :
  Forall (λ c : gmap string pyval, c !! "geoservice" = Some (PStr "Bing"))
    (the_list Bing_sample) ∧
  length (the_list Bing_sample) = 1%nat.
Proof.
  split; [|reflexivity].
  apply (geoservice_always_set Candidate_spec
           (answering Bing_sample_response) no_unquote no_str
           (service_of Bing) redmond).
  exact (is_Ok_the_list Bing_sample eq_refl).
Defined.

Lemma wkid_always_4326_witness :
  Forall (λ c : gmap string pyval, c !! "wkid" = Some (PInt 4326))
    (the_list Census_sample) ∧
  length (the_list Census_sample) = 1%nat.
Proof.
  split; [|reflexivity].
  apply (wkid_always_4326 (answering Census_sample_response)
           no_unquote no_str (service_of USCensus) white_house).
  exact (is_Ok_the_list Census_sample eq_refl).
Defined.

(** C5 fails as stated: Bing stores the coordinates as its JSON holds
    them, so a response whose coordinates are strings gives a candidate
    whose [x] and [y] are strings. *)
Lemma Bing_keeps_string_coordinates :
  observe ["x"; "y"]
    (_geocode Candidate_spec
       (answering (Bing_response [Bing_row (PStr "47.64") (PStr "-122.13")]))
       no_unquote no_str (service_of Bing) redmond)
  = Ok [[Some (PStr "-122.13"); Some (PStr "47.64")]] ∧
  numeric (PStr "-122.13") = false ∧ numeric (PStr "47.64") = false.
Proof.
  repeat split.
Qed.

Lemma coordinates_as_delivered_witness :
  ∃ req response_obj rows,
    request no_unquote (service_of Nominatim) wolf_building = Ok req ∧
    answering (PList [Nominatim_row]) (fst req) (snd req) = Ok response_obj ∧
    rows_of (service_of Nominatim) response_obj = Ok rows ∧
    Forall2 (coordinates_of Nominatim) rows (the_list Nominatim_sample).
Proof.
  apply (coordinates_as_delivered Candidate_spec
           (answering (PList [Nominatim_row])) no_unquote no_str
           (service_of Nominatim) wolf_building).
  exact (is_Ok_the_list Nominatim_sample eq_refl).
Defined.

Lemma zero_rows_empty_list_witness :
  _geocode Candidate_spec (answering (Bing_response []))
    no_unquote no_str (service_of Bing) redmond = Ok [].
Proof.
  eapply zero_rows_empty_list; reflexivity.
Defined.

Lemma USCensus_address_components_witness :
  ∃ req response_obj rows,
    USCensus_request (service_of USCensus) white_house = Ok req ∧
    answering Census_sample_response (fst req) (snd req)
    = Ok response_obj ∧
    USCensus_rows response_obj = Ok rows ∧
    Forall2 census_components rows (the_list Census_sample).
Proof.
  apply (USCensus_address_components Candidate_spec
           (answering Census_sample_response)
           (service_of USCensus) white_house).
  exact (is_Ok_the_list Census_sample eq_refl).
Defined.

(** ** The street address *)

(** C9 fails as stated: a match whose address begins with digits does
    not always give a string: when an ordered component is there, truthy
    and not a string, the join raises [TypeError], and [_geocode], which
    has read the row without trouble up to there, raises it too. *)
Lemma street_number_raises :
  getitem Census_row_street_number "matchedAddress" = Ok (PStr "12 OAK") ∧
  begins_with_digit "12 OAK" = true ∧
  USCensus_street_addr_from_response Census_row_street_number
  = Err TypeError ∧
  run USCensus (Census_response [Census_row_street_number]) white_house
  = Err TypeError.
Proof.
  repeat split.
Qed.

Lemma street_addr_from_response_witness :
  USCensus_street_addr_from_response Census_sample_row
  = Ok (PStr "1600 PENNSYLVANIA AVE NW") ∧
  returned (USCensus_street_addr_from_response Census_sample_row).
Proof.
  split; [reflexivity|].
  destruct (street_addr_from_response Census_sample_row
              "1600 PENNSYLVANIA AVE NW, WASHINGTON, DC, 20500" eq_refl)
    as (_ & _ & _ & Hreturns & _).
  eapply Hreturns; [reflexivity|].
  intros field x Hin Hx. unfold ordered_fields in Hin.
  repeat (apply elem_of_cons in Hin as [-> | Hin]);
    try (apply elem_of_nil in Hin; contradiction);
    cbn in Hx; try discriminate Hx; injection Hx as <-; eauto.
Defined.

(** ** Default chains *)

(** C6 fails as stated: the list [Bing] binds first to
    [DEFAULT_POSTPROCESSORS] has a migrator before its filter. *)
Lemma Bing_first_list_not_ordered :
  convention_ordered Bing_postprocessors_first = false ∧
  group_of <$> Bing_postprocessors_first !! 0%nat = Some (Some renaming) ∧
  group_of <$> Bing_postprocessors_first !! 2%nat = Some (Some filtering) ∧
  bindings "DEFAULT_POSTPROCESSORS" Bing_body !! 0%nat
  = Some (CPost Bing_postprocessors_first).
Proof.
  repeat split.
Qed.

(** * Sample runs of the further properties *)

#[local] Abbreviation MapQuest_sample :=
  (run MapQuest (MapQuest_response [MapQuest_row (fl "39.8") (fl "-89.6")])
     (main_st "Springfield")) (only parsing).

Lemma transport_error_propagates_witness :
  _geocode Candidate_spec (λ _ _, Err (TransportError "timeout"))
    no_unquote no_str (service_of Nominatim) wolf_building
  = Err (TransportError "timeout").
Proof.
  eapply transport_error_propagates; reflexivity.
Defined.

Lemma first_failing_row_decides_witness :
  run Bing
    (Bing_response [Bing_row (fl "47.64") (fl "-122.13");
                    Bing_row_no_confidence; PNone]) redmond
  = Err (KeyError "confidence").
Proof.
  eapply (first_failing_row_decides Candidate_spec _ no_unquote no_str
            (service_of Bing) redmond _ _
            [Bing_row (fl "47.64") (fl "-122.13")] [PNone]
            Bing_row_no_confidence).
  - reflexivity.
  - reflexivity.
  - reflexivity.
  - repeat constructor. eexists. reflexivity.
  - reflexivity.
Defined.

Lemma one_candidate_per_row_witness :
  ∃ req response_obj rows,
    request no_unquote (service_of Bing) redmond = Ok req ∧
    answering Bing_sample_response (fst req) (snd req) = Ok response_obj ∧
    rows_of (service_of Bing) response_obj = Ok rows ∧
    length (the_list Bing_sample) = length rows ∧
    ∀ (i : nat) (c : gmap string pyval),
      the_list Bing_sample !! i = Some c →
      ∃ r, rows !! i = Some r
           ∧ candidate_of Candidate_spec no_str (service_of Bing) r = Ok c.
Proof.
  apply (one_candidate_per_row Candidate_spec
           (answering Bing_sample_response) no_unquote no_str
           (service_of Bing) redmond).
  exact (is_Ok_the_list Bing_sample eq_refl).
Defined.

Lemma first_item_only_witness :
  run Bing (PDict [("resourceSets", PList [])]) redmond = Err IndexError.
Proof.
  destruct (first_item_only Candidate_spec
              (answering (PDict [("resourceSets", PList [])]))
              no_unquote no_str (service_of Bing) "resourceSets" eq_refl)
    as [_ Hempty].
  eapply Hempty; reflexivity.
Defined.

Lemma api_key_required_witness :
  _geocode Candidate_spec (answering Bing_sample_response) no_unquote no_str
    (service_without_settings Bing) redmond
  = Err (KeyError "api_key").
Proof.
  apply api_key_required.
  - reflexivity.
  - reflexivity.
  - intros _ lat lon Hlat. discriminate Hlat.
Defined.

Lemma no_api_key_needed_witness :
  returned (request no_unquote (service_without_settings USCensus)
              white_house).
Proof.
  apply (no_api_key_needed no_unquote (service_without_settings USCensus)
           white_house).
  reflexivity.
Defined.

Lemma attributes_assigned_witness :
  Forall (assigns_only Candidate_spec USCensus) (the_list Census_sample) ∧
  Forall (λ c : gmap string pyval, c !! "score" = Candidate_spec !! "score")
    (the_list Census_sample).
Proof.
  apply (attributes_assigned Candidate_spec
           (answering Census_sample_response) no_unquote no_str
           (service_of USCensus) white_house).
  exact (is_Ok_the_list Census_sample eq_refl).
Defined.

Lemma fields_copied_witness :
  ∃ req response_obj rows,
    request no_unquote (service_of Bing) redmond = Ok req ∧
    answering Bing_sample_response (fst req) (snd req) = Ok response_obj ∧
    rows_of (service_of Bing) response_obj = Ok rows ∧
    Forall2 (copies Bing) rows (the_list Bing_sample).
Proof.
  apply (fields_copied Candidate_spec
           (answering Bing_sample_response) no_unquote no_str
           (service_of Bing) redmond).
  exact (is_Ok_the_list Bing_sample eq_refl).
Defined.

Lemma get_appended_location_adds_nonempty_witness :
  dict_get "city"
    (get_appended_location [("street", "1 Main St")]
       [("city", ""); ("state", "IL")]) = None ∧
  dict_get "state"
    (get_appended_location [("street", "1 Main St")]
       [("city", ""); ("state", "IL")]) = Some "IL".
Proof.
  destruct (get_appended_location_adds_nonempty
              [("street", "1 Main St")] [("city", ""); ("state", "IL")])
    as [Hget _].
  - apply NoDup_ListNoDup. repeat constructor; cbn; intuition discriminate.
  - split; rewrite Hget; reflexivity.
Defined.

Lemma Bing_request_parameters_witness :
  ∃ req, Bing_request (service_of Bing) redmond = Ok req ∧
         dict_get "key" (snd req) = Some (PStr "secret") ∧
         dict_get "query" (snd req)
         = Some (PStr "1 Microsoft Way, Redmond") ∧
         dict_get "addressLine" (snd req) = None.
Proof.
  eexists. split; [reflexivity|].
  destruct (Bing_request_parameters (H := text_float) (service_of Bing)
              redmond _ eq_refl)
    as (Hkey & _ & _ & _ & _ & Hquery & Haddress & _).
  split; [exact Hkey|split; [exact Hquery|exact Haddress]].
Defined.

Lemma MapQuest_subclasses_share_witness :
  snd <$> request no_unquote (service_of MapQuestSSL) (main_st "Springfield")
  = snd <$> request no_unquote (service_of MapQuestOpen)
              (main_st "Springfield").
Proof.
  destruct (MapQuest_subclasses_share (H := text_float) Candidate_spec
              no_unquote no_str
              (service_of MapQuestSSL) (service_of MapQuestOpen)
              eq_refl eq_refl eq_refl) as [Hreq _].
  apply Hreq.
Defined.

Lemma MapQuest_match_addr_witness :
  ∃ req response_obj rows,
    MapQuest_request no_unquote (service_of MapQuest) (main_st "Springfield")
    = Ok req ∧
    answering (MapQuest_response [MapQuest_row (fl "39.8") (fl "-89.6")])
      (fst req) (snd req) = Ok response_obj ∧
    MapQuest_rows response_obj = Ok rows ∧
    Forall2 MapQuest_address rows (the_list MapQuest_sample).
Proof.
  apply (MapQuest_match_addr Candidate_spec
           (answering (MapQuest_response
                         [MapQuest_row (fl "39.8") (fl "-89.6")]))
           no_unquote (service_of MapQuest) (main_st "Springfield")).
  exact (is_Ok_the_list MapQuest_sample eq_refl).
Defined.

Example MapQuest_sample_run :
  observe ["match_addr"; "locator"; "geoservice"] MapQuest_sample
  = Ok [[Some (PStr "1 Main St, IL, 62701"); Some (PStr "ADDRESS");
         Some (PStr "MapQuest")]].
Proof. reflexivity. Qed.

Lemma Nominatim_locator_entity_witness :
  ∃ req response_obj rows,
    Nominatim_request (service_of Nominatim) wolf_building = Ok req ∧
    answering (PList [Nominatim_row]) (fst req) (snd req) = Ok response_obj ∧
    iterate response_obj = Ok rows ∧
    Forall2 (Nominatim_fields no_str) rows (the_list Nominatim_sample).
Proof.
  apply (Nominatim_locator_entity Candidate_spec
           (answering (PList [Nominatim_row])) no_str
           (service_of Nominatim) wolf_building).
  exact (is_Ok_the_list Nominatim_sample eq_refl).
Defined.
